(** * playwright-ts: configuration loaders, device registry and project list

    A shallow embedding of the TypeScript configuration modules of the
    template (lib/config/environment-config.ts, lib/config/file-config.ts,
    lib/config/playwright-project-config.ts, lib/types/devices/index.ts,
    lib/types/devices/samsung-a52.ts and playwright.config.ts), followed by
    the properties of the specification that can be stated over them.

    Conventions.
    - A JavaScript value that may be [undefined] is an [option]; [None] is
      [undefined].
    - A JavaScript object used as a dictionary ([process.env], the device
      table) is a [gmap string _]; reading a property that is not there
      gives [None].
    - A function that may [throw] returns a [completion]. *)

From Stdlib Require Import Ascii String Floats.
From stdpp Require Import base option strings list sorting gmap fin_maps.

Local Open Scope string_scope.

(** ** Errors and completions *)

(** The errors the modules can raise.  [ConfigError] is the only error class
    of the repository (lib/types/errors/config-error.ts); it stores the name
    it was built with.  [SyntaxError] is what [JSON.parse] raises. *)
Inductive error : Type :=
  | ConfigError (varName : string)
  | SyntaxError.

Inductive completion (A : Type) : Type :=
  | Returns (a : A)
  | Throws (e : error).
Arguments Returns {A} a.
Arguments Throws {A} e.

(** Sequencing: a [throw] in the first statement skips the rest. *)
#[global] Instance completion_bind : MBind completion :=
  λ A B k c,
    match c with
    | Returns a => k a
    | Throws e => Throws e
    end.

(** ** The JavaScript primitives the modules use *)

Module Js.

(** Truthiness of a [string | undefined]: [undefined] and the empty string
    are falsy, every other string is truthy. *)
Definition truthy (v : option string) : bool :=
  match v with
  | None => false
  | Some EmptyString => false
  | Some (String _ _) => true
  end.

(** [a || b] on [string | undefined] operands. *)
Definition or_else (a b : option string) : option string :=
  if truthy a then a else b.

Definition is_upper (c : ascii) : bool :=
  let n := nat_of_ascii c in ((65 <=? n) && (n <=? 90))%nat.

Definition lower_char (c : ascii) : ascii :=
  if is_upper c then ascii_of_nat (nat_of_ascii c + 32) else c.

(** [String.prototype.toLowerCase].  Strings are sequences of characters;
    the letters A to Z are mapped to a to z and every other character is
    kept.  (The Unicode mappings of characters outside ASCII never yield a
    letter of "true" or "false", the only strings the result is compared
    with.) *)
Fixpoint toLowerCase (s : string) : string :=
  match s with
  | EmptyString => EmptyString
  | String c s' => String (lower_char c) (toLowerCase s')
  end.

(** [strip_prefix p s] is [Some rest] when [s = p +:+ rest]. *)
Fixpoint strip_prefix (p s : string) : option string :=
  match p, s with
  | EmptyString, _ => Some s
  | String _ _, EmptyString => None
  | String a p', String b s' =>
      if Ascii.eqb a b then strip_prefix p' s' else None
  end.

(** [s.replace(pattern, replacement)] with a string [pattern]: the first
    occurrence of [pattern] in [s], scanning from the left, is replaced;
    a string without an occurrence is returned as it is.  The only call
    passes the replacement [""], so the dollar patterns of a replacement
    string do not arise. *)
Fixpoint replace (pattern replacement s : string) : string :=
  match strip_prefix pattern s with
  | Some rest => replacement +:+ rest
  | None =>
      match s with
      | EmptyString => EmptyString
      | String c s' => String c (replace pattern replacement s')
      end
  end.

(** Equality of two strings up to the case of their letters, stated without
    [toLowerCase], for the properties of [getBool].  Two characters are the
    same letter up to case when they are equal, or one is a capital A to Z
    and the other is the small letter 32 places up. *)
Definition same_letter (a b : ascii) : Prop :=
  a = b
  ∨ (is_upper a = true ∧ nat_of_ascii b = (nat_of_ascii a + 32)%nat)
  ∨ (is_upper b = true ∧ nat_of_ascii a = (nat_of_ascii b + 32)%nat).

(** Case-insensitive equality of two strings, character by character. *)
Inductive equal_ignoring_case : string → string → Prop :=
  | eic_empty : equal_ignoring_case "" ""
  | eic_char a b s t :
      same_letter a b → equal_ignoring_case s t →
      equal_ignoring_case (String a s) (String b t).

(** The names of the properties every object literal inherits from
    [Object.prototype].  Reading one of them from an object that has no own
    property of that name gives the inherited function (or, for
    ["__proto__"], the prototype), not [undefined]. *)
Definition object_prototype_names : list string :=
  [ "constructor"; "__defineGetter__"; "__defineSetter__"; "hasOwnProperty";
    "__lookupGetter__"; "__lookupSetter__"; "isPrototypeOf";
    "propertyIsEnumerable"; "toString"; "valueOf"; "__proto__"; "toLocaleString" ].

(** A string of ASCII characters only.  On such strings a character is one
    UTF-16 code unit, with the same number. *)
Fixpoint is_ascii (s : string) : bool :=
  match s with
  | EmptyString => true
  | String c s' => (nat_of_ascii c <? 128)%nat && is_ascii s'
  end.

End Js.

(** ** lib/config/environment-config.ts *)

Module Env.

(** [process.env] after [dotenv.config] has run. *)
Abbreviation environment := (gmap string string).

(** [function getEnvVariable(configKey) { return process.env[configKey]; }] *)
Definition getEnvVariable (env : environment) (configKey : string) : option string :=
  env !! configKey.

(** [function getString(configKey: string, defaultValue?: string): string] *)
Definition getString (env : environment) (configKey : string)
    (defaultValue : option string) : completion string :=
  let value := getEnvVariable env configKey in
  if negb (Js.truthy value) && negb (Js.truthy defaultValue)
  then Throws (ConfigError configKey)
  else Returns (default "" (Js.or_else value (Js.or_else defaultValue (Some "")))).

(** The [boolMap] of [getBool]: [new Map([['true', true], ['false', false]])]. *)
Definition boolMap : gmap string bool :=
  <["false" := false]> (<["true" := true]> ∅).

(** [function getBool(configKey: string, defaultValue: boolean = false)];
    an omitted argument is [None] and takes the default [false]. *)
Definition getBool (env : environment) (configKey : string)
    (defaultValue : option bool) : completion bool :=
  let defaultValue := default false defaultValue in
  let value := getEnvVariable env configKey in
  if negb (Js.truthy value) then Returns defaultValue
  else
    let lowerValue := Js.toLowerCase (default "" value) in
    match boolMap !! lowerValue with
    | Some b => Returns b
    | None => Throws (ConfigError configKey)
    end.

(** [class EnvironmentConfig]: the four fields, initialised in order. *)
Record EnvironmentConfig : Type := {
  BasePath : string;
  DesktopReportPath : string;
  MobileReportPath : string;
  RunParallel : bool
}.

(** [export const envConfig = new EnvironmentConfig();] *)
Definition envConfig (env : environment) : completion EnvironmentConfig :=
  basePath ← getString env "BASE_URL" None;
  desktop ← getString env "DESKTOP_REPORT_PATH" (Some "html-report/desktop");
  mobile ← getString env "MOBILE_REPORT_PATH" (Some "html-report/mobile");
  parallel ← getBool env "RUN_PARALLEL" None;
  Returns {| BasePath := basePath; DesktopReportPath := desktop;
             MobileReportPath := mobile; RunParallel := parallel |}.

End Env.

(** ** lib/types/index.ts *)

Module Types.

(** Playwright's [ViewportSize]. *)
Record ViewportSize : Type := { width : Z; height : Z }.

Inductive BrowserType : Type := chromium | firefox | webkit.

Record DeviceDescriptor : Type := {
  viewport : ViewportSize;
  userAgent : string;
  deviceScaleFactor : float;
  isMobile : bool;
  hasTouch : bool;
  defaultBrowserType : BrowserType
}.

(** [Exclude<LaunchOptions['channel'], undefined>], a string. *)
Abbreviation BrowserChannel := string.

Record DeviceNameChannel : Type := {
  deviceName : string;
  channel : option BrowserChannel
}.

End Types.

(** ** lib/types/devices/samsung-a52.ts and lib/types/devices/index.ts *)

Module Devices.
Import Types.

Definition GalaxyA52 : DeviceDescriptor := {|
  userAgent := "Mozilla/5.0 (Linux; Android 11; SAMSUNG SM-A526B) AppleWebKit/537.36 (KHTML, like Gecko) Chrome/90.0.4430.91 Mobile Safari/537.36";
  viewport := {| width := 412; height := 915 |};
  deviceScaleFactor := 2.75%float;
  isMobile := true;
  hasTouch := true;
  defaultBrowserType := chromium
|}.

(** One spread element of an object literal, [{ ...source }] written onto
    the properties collected so far: every property of [source] is
    copied, replacing a property of the same name. *)
Definition spread {V : Type} (target source : gmap string V) : gmap string V :=
  source ∪ target.

Definition __customList : gmap string DeviceDescriptor :=
  {[ "Galaxy A52" := GalaxyA52 ]}.

(** [export const customDevices = { ...devices, ...__customList };] where
    [devices] is the table exported by @playwright/test. *)
Definition customDevices (devices : gmap string DeviceDescriptor)
    : gmap string DeviceDescriptor :=
  spread (spread ∅ devices) __customList.

End Devices.

(** ** lib/config/playwright-project-config.ts *)

Module ProjectConfig.
Import Types.

(** The object literal [{ ...devices[deviceId], channel: channel }].  The
    spread copies the six properties of the descriptor when
    [devices[deviceId]] is one and copies nothing when it is [undefined];
    [channel] is then written with the argument as it came. *)
Record UseOptions : Type := {
  device : option DeviceDescriptor;
  channel : option BrowserChannel
}.

(** The [use] of a project: the array of table entries of the two
    grouping projects, or the object of a device project. *)
Inductive ProjectUse : Type :=
  | UseArray (entries : list (option DeviceDescriptor))
  | UseObject (options : UseOptions).

Record Project : Type := {
  name : string;
  use : ProjectUse;
  outputDir : string
}.

Definition desktopBrowsers : list DeviceNameChannel := [
  {| deviceName := "Desktop Chrome"; Types.channel := Some "chrome" |};
  {| deviceName := "Desktop Edge"; Types.channel := Some "msedge" |};
  {| deviceName := "Desktop Firefox"; Types.channel := None |};
  {| deviceName := "Desktop Safari"; Types.channel := None |}
].

Definition mobileBrowsers : list string :=
  ["Galaxy S5"; "Galaxy S5 landscape"; "Galaxy A52"; "iPhone 12"].

Section Compose.
(** [devices] is the imported [customDevices], [envConfig] the imported
    environment configuration.  The two browser lists are taken as
    arguments, so that the properties can range over them; the module
    itself uses [desktopBrowsers] and [mobileBrowsers].

    [devices !! name] is the read [devices[name]] of the table's own
    properties.  For a name of [Js.object_prototype_names] that is not an
    own property the read gives an inherited function instead of
    [undefined]: spreading it copies nothing, as for [undefined], so the
    [use] of a device project is the same; the element of a grouping
    project is then the function, which the [use] array below does not
    show.  The properties of the grouping projects exclude those names. *)
Variable devices : gmap string DeviceDescriptor.
Variable envConfig : Env.EnvironmentConfig.

Definition createDeviceProject (id deviceId outputDir : string)
    (channel : option BrowserChannel) : Project :=
  {| name := id;
     use := UseObject {| device := devices !! deviceId; channel := channel |};
     outputDir := outputDir |}.

Definition desktopProjects (desktop : list DeviceNameChannel) : list Project :=
  (λ d, createDeviceProject (Js.replace "Desktop " "" (deviceName d)) (deviceName d)
          (Env.DesktopReportPath envConfig) (Types.channel d)) <$> desktop.

Definition mobileProjects (mobile : list string) : list Project :=
  (λ id, createDeviceProject id id (Env.MobileReportPath envConfig) None) <$> mobile.

Definition projectConfig (desktop : list DeviceNameChannel) (mobile : list string)
    : list Project :=
  {| name := "Desktop";
     use := UseArray ((λ d, devices !! deviceName d) <$> desktop);
     outputDir := Env.DesktopReportPath envConfig |}
  :: {| name := "Mobile";
        use := UseArray ((λ id, devices !! id) <$> mobile);
        outputDir := Env.MobileReportPath envConfig |}
  :: desktopProjects desktop ++ mobileProjects mobile.

End Compose.

(** [export default projectConfig;] *)
Definition default_export (devices : gmap string DeviceDescriptor)
    (envConfig : Env.EnvironmentConfig) : list Project :=
  projectConfig devices envConfig desktopBrowsers mobileBrowsers.

End ProjectConfig.

(** ** lib/config/file-config.ts *)

Module FileConfig.

(** What the read of a path hands to the callback of [fs.readFile]: an
    error (with its code, "ENOENT" for a file that is not there) or the
    text of the file. *)
Inductive read_result : Type :=
  | ReadError (code : string)
  | ReadData (data : string).

(** The arrow function handed to [fs.readFile] by [readObject].  It closes
    over [path] and over the local variable [content] of that call. *)
Record callback : Type := {
  cb_path : string;
  cb_content : nat
}.

(** The state a call of [readObject] runs in: the files, the [content]
    variables of the calls made so far, and the callbacks registered with
    [fs.readFile] that the event loop has not called yet. *)
Record world : Type := {
  files : string → read_result;
  cells : list string;
  pending : list callback
}.

(** [let content: string = ""] *)
Definition declare_content (w : world) : nat * world :=
  (length (cells w),
   {| files := files w; cells := cells w ++ [""]; pending := pending w |}).

(** [fs.readFile(path, "utf-8", cb)] starts the read and returns; [cb] is
    called by the event loop in a later turn, after the code that is
    running has returned. *)
Definition fs_readFile (cb : callback) (w : world) : world :=
  {| files := files w; cells := cells w; pending := pending w ++ [cb] |}.

(** The body of the callback, [(err, data) => { if (err) throw new
    ConfigError(path); content = data; }], as the event loop runs it. *)
Definition run_callback (cb : callback) (w : world) : completion unit * world :=
  match files w (cb_path cb) with
  | ReadError _ => (Throws (ConfigError (cb_path cb)), w)
  | ReadData data =>
      (Returns (),
       {| files := files w; cells := <[cb_content cb := data]> (cells w);
          pending := pending w |})
  end.

(** One turn of the event loop: the oldest pending callback is called. *)
Definition turn (w : world) : option (completion unit * world) :=
  match pending w with
  | [] => None
  | cb :: rest =>
      Some (run_callback cb {| files := files w; cells := cells w; pending := rest |})
  end.

Section Loader.
(** [JSON.parse] of the runtime: [None] stands for its [SyntaxError]. *)
Variable JSON : Type.
Variable JSON_parse : string → option JSON.

(** [path.join(basePath, "web-server.json")], with [basePath] computed
    from [__dirname]. *)
Variable WebServerConfigPath : string.

(** [function parseJSON<T>(jsonString: string): T] *)
Definition parseJSON (jsonString : string) : completion JSON :=
  match JSON_parse jsonString with
  | Some v => Returns v
  | None => Throws SyntaxError
  end.

(** [function readObject<T>(path: PathLike | string): T | undefined] *)
Definition readObject (path : string) (w : world)
    : completion (option JSON) * world :=
  let '(content, w) := declare_content w in
  let w := fs_readFile {| cb_path := path; cb_content := content |} w in
  if negb (Js.truthy (cells w !! content))
  then (Returns None, w)
  else (v ← parseJSON (default "" (cells w !! content)); Returns (Some v), w).

(** [export default { PlayWrightServerConfig: readObject(WebServerConfigPath) }] *)
Definition PlayWrightServerConfig (w : world) : completion (option JSON) * world :=
  readObject WebServerConfigPath w.

End Loader.

End FileConfig.

(** ** lib/config/playwright-reporter-config.ts, lib/config/config.ts and
       playwright.config.ts *)

Module PlaywrightConfig.

(** A reporter: its name and its options. *)
Definition reporters : list (string * list (string * string)) :=
  [ ("html", [("open", "never")]); ("line", []) ].

(** The values of the properties of the [EnvironmentConfig] instance. *)
Inductive value : Type :=
  | VString (s : string)
  | VBool (b : bool).

(** The own properties of [envConfig]: one per class field. *)
Definition properties (c : Env.EnvironmentConfig) : gmap string value :=
  <["RunParallel" := VBool (Env.RunParallel c)]>
    (<["MobileReportPath" := VString (Env.MobileReportPath c)]>
       (<["DesktopReportPath" := VString (Env.DesktopReportPath c)]>
          (<["BasePath" := VString (Env.BasePath c)]> ∅))).

(** [config.EnvironmentConfig.<property>] *)
Definition get (c : Env.EnvironmentConfig) (property : string) : option value :=
  properties c !! property.

Section Entry.
Variable JSON : Type.

(** The object exported by lib/config/file-config.ts, once evaluated. *)
Record FileConfigObject : Type := {
  PlayWrightServerConfig : option JSON
}.

(** [class Config] of lib/config/config.ts. *)
Record Config : Type := {
  EnvironmentConfig : Env.EnvironmentConfig;
  Reporters : list (string * list (string * string));
  ProjectConfig : list ProjectConfig.Project;
  FileConfig : FileConfigObject
}.

(** The object literal passed to [defineConfig]. *)
Record TestConfig : Type := {
  testDir : string;
  fullyParallel : option value;
  forbidOnly : bool;
  retries : nat;
  workers : option nat;
  reporter : list (string * list (string * string));
  baseURL : option value;
  trace : string;
  projects : list ProjectConfig.Project;
  webServer : option JSON
}.

(** [export default defineConfig({ ... })] of playwright.config.ts. *)
Definition defineConfig (env : Env.environment) (config : Config) : TestConfig :=
  {| testDir := "./tests-examples";
     fullyParallel := get (EnvironmentConfig config) "RunParrel";
     forbidOnly := Js.truthy (env !! "CI");
     retries := if Js.truthy (env !! "CI") then 2 else 0;
     workers := if Js.truthy (env !! "CI") then Some 1 else None;
     reporter := Reporters config;
     baseURL := get (EnvironmentConfig config) "BasePath";
     trace := "on-first-retry";
     projects := ProjectConfig config;
     webServer := PlayWrightServerConfig (FileConfig config) |}.

Variable JSON_parse : string → option JSON.
Variable WebServerConfigPath : string.
Variable devices : gmap string Types.DeviceDescriptor.

(** [export const config = new Config();] with the imports of
    lib/config/config.ts evaluated in their order. *)
Definition config (env : Env.environment) (w : FileConfig.world) : completion Config :=
  envConfig ← Env.envConfig env;
  webServerSettings ←
    (FileConfig.PlayWrightServerConfig JSON JSON_parse WebServerConfigPath w).1;
  Returns {| EnvironmentConfig := envConfig;
             Reporters := reporters;
             ProjectConfig :=
               ProjectConfig.default_export (Devices.customDevices devices) envConfig;
             FileConfig := {| PlayWrightServerConfig := webServerSettings |} |}.

(** Loading playwright.config.ts. *)
Definition playwright_config (env : Env.environment) (w : FileConfig.world)
    : completion TestConfig :=
  c ← config env w; Returns (defineConfig env c).

End Entry.

End PlaywrightConfig.

(** ** lib/types/errors/config-error.ts *)

Module Errors.

(** The double quote character of the message template. *)
Definition quote : string := String "034"%char EmptyString.

(** The [message] the constructor of [ConfigError] hands to [Error]: the
    template literal with [varName] spliced in between two quotes. *)
Definition message (varName : string) : string :=
  "No environment variable declared for " +:+ quote +:+ varName +:+ quote
  +:+ " - have you set the value in " +:+ quote +:+ "~/env/.env" +:+ quote +:+ "?".

(** The [cause] option of every [ConfigError]. *)
Definition cause : string := "config".

End Errors.

(** ** .ref/scripts/device-list.ts *)

Module DeviceList.

(** The line feed of the string literals of the script. *)
Definition newline : string := String "010"%char EmptyString.

(** [Array.prototype.sort] without a comparator, on strings: ascending by
    character code, position by position.  The runtime compares UTF-16
    code units; on ASCII strings ([Js.is_ascii]) these are the characters
    compared here, and the properties of the sorted list are stated for
    such names. *)
Definition sort (l : list string) : list string := merge_sort String.le l.

(** [Array.prototype.join]. *)
Fixpoint join (separator : string) (l : list string) : string :=
  match l with
  | [] => EmptyString
  | x :: l' =>
      match l' with
      | [] => x
      | _ :: _ => x +:+ separator +:+ join separator l'
      end
  end.

(** [Object.getOwnPropertyNames] of a dictionary.  The names come in some
    order without repetition; the script sorts them at once. *)
Definition getOwnPropertyNames {V : Type} (o : gmap string V) : list string :=
  elements (dom o).

Section Script.
(** The device table of @playwright/test that [customDevices] is built on. *)
Variable devices : gmap string Types.DeviceDescriptor.

(** [const deviceNames = Object.getOwnPropertyNames(customDevices).sort();] *)
Definition deviceNames : list string :=
  sort (getOwnPropertyNames (Devices.customDevices devices)).

(** [let lines = []; lines.push(<header>, <header> + line feed, ...deviceNames);] *)
Definition lines : list string :=
  "/* ALL DEVICES ARE PULLED FROM THE DEVICE TYPE IN THE PLAYWRIGHT LIBRARY */"
  :: ("/* REGENERATE LIST USING `npm run ref:generate` */" +:+ newline)
  :: deviceNames.

(** [const content = lines.join(line feed);], the text handed to
    [fs.writeFile]. *)
Definition content : string := join newline lines.

End Script.

End DeviceList.

(** ** Sample inputs

    Concrete environments, registries and files, used to run the
    definitions above. *)

Module Samples.
Import Types.

Definition D1 : DeviceDescriptor := {|
  userAgent := "Mozilla/5.0 (Windows NT 10.0; Win64; x64) Chrome/120.0 Safari/537.36";
  viewport := {| width := 1280; height := 720 |};
  deviceScaleFactor := 1%float;
  isMobile := false;
  hasTouch := false;
  defaultBrowserType := chromium
|}.

Definition D2 : DeviceDescriptor := {|
  userAgent := "Mozilla/5.0 (iPhone; CPU iPhone OS 14_4 like Mac OS X) Version/14.0 Mobile Safari/604.1";
  viewport := {| width := 390; height := 664 |};
  deviceScaleFactor := 3%float;
  isMobile := true;
  hasTouch := true;
  defaultBrowserType := webkit
|}.

(** The registry of the end-to-end scenario of the specification. *)
Definition registry : gmap string DeviceDescriptor :=
  <["iPhone 12" := D2]> (<["Desktop Chrome" := D1]> ∅).

Definition env : Env.environment :=
  <["RUN_PARALLEL" := "true"]> (<["BASE_URL" := "http://localhost"]> ∅).

Definition envConfig : Env.EnvironmentConfig := {|
  Env.BasePath := "http://localhost";
  Env.DesktopReportPath := "html-report/desktop";
  Env.MobileReportPath := "html-report/mobile";
  Env.RunParallel := true
|}.

(** A parser that knows one document, the empty array. *)
Inductive json : Type := EmptyArray.

Definition parse (s : string) : option json :=
  if decide (s = "[]") then Some EmptyArray else None.

Definition config_path : string := "env/config/web-server.json".

(** A start of the process with nothing pending, for a given file table. *)
Definition start (files : string → FileConfig.read_result) : FileConfig.world :=
  {| FileConfig.files := files; FileConfig.cells := []; FileConfig.pending := [] |}.

(** No file anywhere. *)
Definition no_files (path : string) : FileConfig.read_result :=
  FileConfig.ReadError "ENOENT".

(** Only [config_path] exists; it holds the empty array. *)
Definition one_file (path : string) : FileConfig.read_result :=
  if decide (path = config_path) then FileConfig.ReadData "[]"
  else FileConfig.ReadError "ENOENT".

End Samples.

(** * Properties *)

(** ** JavaScript primitives *)

Section JsFacts.
Import Js.

Lemma truthy_true (v : option string) :
  truthy v = true ↔ ∃ s, v = Some s ∧ s ≠ "".
Proof.
  split.
  - destruct v as [[|c s]|]; simpl; try discriminate.
    intros _. exists (String c s). split; [reflexivity | discriminate].
  - intros (s & -> & Hs). destruct s; [contradiction | reflexivity].
Qed.

Lemma truthy_false (v : option string) :
  truthy v = false ↔ v = None ∨ v = Some "".
Proof.
  split.
  - destruct v as [[|c s]|]; simpl; try discriminate; auto.
  - intros [-> | ->]; reflexivity.
Qed.

Lemma truthy_some (s : string) : s ≠ "" → truthy (Some s) = true.
Proof. intros Hs. apply truthy_true. eauto. Qed.

Lemma is_upper_bounds (c : ascii) :
  is_upper c = true ↔ (65 ≤ nat_of_ascii c ≤ 90)%nat.
Proof.
  unfold is_upper. cbv zeta. rewrite andb_true_iff, !Nat.leb_le. reflexivity.
Qed.

Lemma same_letter_lower (a b : ascii) :
  is_upper b = false → same_letter a b ↔ lower_char a = b.
Proof.
  intros Hb. unfold same_letter, lower_char. split.
  - intros [-> | [[Ha Hab] | [Hb' _]]].
    + rewrite Hb. reflexivity.
    + rewrite Ha, <- Hab. apply ascii_nat_embedding.
    + congruence.
  - destruct (is_upper a) eqn:Ha; [| auto].
    intros <-. right; left. split; [reflexivity |].
    apply nat_ascii_embedding. apply is_upper_bounds in Ha. lia.
Qed.

(** A string without capitals is what [toLowerCase] yields exactly for
    the strings that equal it up to case. *)
Lemma toLowerCase_eq_iff (t s : string) :
  toLowerCase t = t → toLowerCase s = t ↔ equal_ignoring_case s t.
Proof.
  revert s. induction t as [|b t IH]; intros s Ht.
  - split.
    + destruct s; [constructor | discriminate].
    + inversion 1. reflexivity.
  - simpl in Ht. injection Ht as Hb Ht.
    assert (is_upper b = false) as Hup.
    { destruct (is_upper b) eqn:E; [| reflexivity].
      exfalso. unfold lower_char in Hb. rewrite E in Hb.
      apply (f_equal nat_of_ascii) in Hb.
      apply is_upper_bounds in E.
      rewrite nat_ascii_embedding in Hb; lia. }
    split.
    + destruct s as [|a s]; [discriminate |]. simpl.
      intros [= Ha Hs]. constructor.
      * apply same_letter_lower; assumption.
      * apply IH; assumption.
    + inversion 1 as [| a b' s' t' Hl Hr]; subst. simpl. f_equal.
      * apply same_letter_lower; assumption.
      * apply IH; assumption.
Qed.

Lemma append_cons (c : ascii) (s t : string) :
  String c s +:+ t = String c (s +:+ t).
Proof. reflexivity. Qed.

Lemma strip_prefix_Some (p s rest : string) :
  strip_prefix p s = Some rest ↔ s = p +:+ rest.
Proof.
  revert s. induction p as [|a p IH]; intros s.
  - change ("" +:+ rest) with rest. simpl.
    split; [intros [= ->] | intros ->]; reflexivity.
  - rewrite append_cons. simpl.
    destruct s as [|b s]; [split; discriminate |].
    destruct (Ascii.eqb_spec a b) as [-> | Hab].
    + rewrite IH. split; [intros -> | intros [= ->]]; reflexivity.
    + split; [discriminate | intros [= ? _]; congruence].
Qed.

Lemma replace_unfold (p r s : string) :
  replace p r s =
    match strip_prefix p s with
    | Some rest => r +:+ rest
    | None =>
        match s with
        | EmptyString => EmptyString
        | String c s' => String c (replace p r s')
        end
    end.
Proof. destruct s; reflexivity. Qed.

(** A pattern at the very start of the string is the one replaced. *)
Lemma replace_prefix (p r rest : string) :
  replace p r (p +:+ rest) = r +:+ rest.
Proof.
  rewrite replace_unfold.
  replace (strip_prefix p (p +:+ rest)) with (Some rest); [reflexivity |].
  symmetry. apply strip_prefix_Some. reflexivity.
Qed.

(** The occurrence replaced is the leftmost one, wherever it starts. *)
Lemma replace_leftmost (p r pre post : string) :
  (∀ pre' post', pre +:+ p +:+ post = pre' +:+ p +:+ post' →
                 (String.length pre ≤ String.length pre')%nat) →
  replace p r (pre +:+ p +:+ post) = pre +:+ r +:+ post.
Proof.
  induction pre as [|c pre IH]; intros Hmin.
  - exact (replace_prefix p r post).
  - rewrite replace_unfold, !append_cons.
    destruct (strip_prefix p (String c (pre +:+ p +:+ post))) as [rest|] eqn:E.
    + apply strip_prefix_Some in E.
      specialize (Hmin "" rest E). simpl in Hmin. lia.
    + f_equal. apply IH. intros pre' post' H.
      specialize (Hmin (String c pre') post').
      rewrite !append_cons, H in Hmin. specialize (Hmin eq_refl).
      simpl in Hmin. lia.
Qed.

(** A string in which the pattern does not occur is returned as it is. *)
Lemma replace_absent (p r s : string) :
  (∀ pre post, s ≠ pre +:+ p +:+ post) → replace p r s = s.
Proof.
  induction s as [|c s IH]; intros Hno; rewrite replace_unfold.
  - destruct (strip_prefix p "") as [rest|] eqn:E; [| reflexivity].
    apply strip_prefix_Some in E. destruct (Hno "" rest E).
  - destruct (strip_prefix p (String c s)) as [rest|] eqn:E.
    + apply strip_prefix_Some in E. destruct (Hno "" rest E).
    + f_equal. apply IH. intros pre post ->. apply (Hno (String c pre) post).
      reflexivity.
Qed.

End JsFacts.

(** ** Environment settings loader *)

Section EnvFacts.
Import Env.

Lemma boolMap_lookup (s : string) :
  boolMap !! s =
    if decide (s = "false") then Some false
    else if decide (s = "true") then Some true else None.
Proof.
  unfold boolMap. repeat case_decide; subst; simplify_map_eq; reflexivity.
Qed.

Lemma getBool_nonempty (env : environment) (key v : string) (dflt : option bool) :
  env !! key = Some v → v ≠ "" →
  getBool env key dflt =
    match boolMap !! Js.toLowerCase v with
    | Some b => Returns b
    | None => Throws (ConfigError key)
    end.
Proof.
  intros Hv Hne. unfold getBool, getEnvVariable. rewrite Hv.
  rewrite truthy_some by assumption. reflexivity.
Qed.

Lemma getBool_falsy (env : environment) (key : string) (dflt : option bool) :
  Js.truthy (env !! key) = false →
  getBool env key dflt = Returns (default false dflt).
Proof. intros H. unfold getBool, getEnvVariable. rewrite H. reflexivity. Qed.


End EnvFacts.



(** The other direction: the key is absent and a default was supplied, the
    empty string, and [getString] throws all the same. *)
Example getString_empty_default_throws :
  Env.getString ∅ "BASE_URL" (Some "") = Throws (ConfigError "BASE_URL").
Proof. reflexivity. Qed.






Example getBool_mixed_case :
  Env.getBool (<["RUN_PARALLEL" := "TrUe"]> ∅) "RUN_PARALLEL" None = Returns true
  ∧ Env.getBool (<["RUN_PARALLEL" := "FALSE"]> ∅) "RUN_PARALLEL" (Some true) = Returns false
  ∧ Env.getBool ∅ "RUN_PARALLEL" None = Returns false
  ∧ Env.getBool ∅ "RUN_PARALLEL" (Some true) = Returns true.
Proof. vm_compute. auto. Qed.

(** ** Device registry *)

Section RegistryFacts.
Import Types Devices.

Lemma spread_lookup_Some {V : Type} (target source : gmap string V) (k : string) (v : V) :
  source !! k = Some v → spread target source !! k = Some v.
Proof. intros H. unfold spread. apply lookup_union_Some_l, H. Qed.

Lemma spread_lookup_None {V : Type} (target source : gmap string V) (k : string) :
  source !! k = None → spread target source !! k = target !! k.
Proof. intros H. unfold spread. apply lookup_union_r, H. Qed.

Lemma spread_empty {V : Type} (source : gmap string V) : spread ∅ source = source.
Proof. unfold spread. apply (right_id_L ∅ (∪)). Qed.

End RegistryFacts.

(** C9: in [{ ...base, ...user }] a name of [user] resolves to the
    descriptor [user] gives it, whether or not [base] has the name, and any
    other name resolves as in [base]; the registry of the template resolves
    "Galaxy A52" to [GalaxyA52] over any built-in table, and every other
    name as the built-in table does. *)
Theorem customDevices_user_entry_wins :
  (∀ (base user : gmap string Types.DeviceDescriptor) (name : string) d,
     user !! name = Some d →
     Devices.spread (Devices.spread ∅ base) user !! name = Some d)
  ∧ (∀ (base user : gmap string Types.DeviceDescriptor) (name : string),
       user !! name = None →
       Devices.spread (Devices.spread ∅ base) user !! name = base !! name)
  ∧ (∀ devices : gmap string Types.DeviceDescriptor,
       Devices.customDevices devices !! "Galaxy A52" = Some Devices.GalaxyA52
       ∧ ∀ name, name ≠ "Galaxy A52" →
                 Devices.customDevices devices !! name = devices !! name).
Proof.
  split; [| split].
  - intros base user name d H. apply spread_lookup_Some, H.
  - intros base user name H. rewrite spread_lookup_None by exact H.
    rewrite spread_empty. reflexivity.
  - intros devices. unfold Devices.customDevices, Devices.__customList. split.
    + apply spread_lookup_Some, lookup_singleton_eq.
    + intros name Hne. rewrite spread_lookup_None, spread_empty; [reflexivity |].
      apply lookup_singleton_ne. congruence.
Qed.

Lemma customDevices_user_entry_wins_witness :
  Devices.spread (Devices.spread ∅ (<["Galaxy A52" := Samples.D2]> Samples.registry))
    Devices.__customList !! "Galaxy A52" = Some Devices.GalaxyA52
  ∧ Devices.customDevices Samples.registry !! "iPhone 12" = Some Samples.D2.
Proof.
  destruct customDevices_user_entry_wins as (Hwins & _ & Hcustom). split.
  - apply Hwins. reflexivity.
  - destruct (Hcustom Samples.registry) as [_ Hother].
    rewrite Hother by discriminate. reflexivity.
Defined.

(** ** Project list *)

Section ProjectFacts.
Import Types ProjectConfig.
Variable devices : gmap string DeviceDescriptor.
Variable envConfig : Env.EnvironmentConfig.

Lemma projectConfig_length (desktop : list DeviceNameChannel) (mobile : list string) :
  length (projectConfig devices envConfig desktop mobile)
  = 2 + length desktop + length mobile.
Proof.
  unfold projectConfig, desktopProjects, mobileProjects. simpl.
  rewrite length_app, !length_fmap. reflexivity.
Qed.

Lemma projectConfig_lookup_desktop
    (desktop : list DeviceNameChannel) (mobile : list string) (i : nat) d :
  desktop !! i = Some d →
  projectConfig devices envConfig desktop mobile !! (2 + i)
  = Some (createDeviceProject devices
            (Js.replace "Desktop " "" (deviceName d)) (deviceName d)
            (Env.DesktopReportPath envConfig) (Types.channel d)).
Proof.
  intros H. unfold projectConfig, desktopProjects. simpl.
  rewrite lookup_app_l by (rewrite length_fmap; eapply lookup_lt_Some, H).
  rewrite list_lookup_fmap, H. reflexivity.
Qed.

Lemma projectConfig_lookup_mobile
    (desktop : list DeviceNameChannel) (mobile : list string) (j : nat) id :
  mobile !! j = Some id →
  projectConfig devices envConfig desktop mobile !! (2 + length desktop + j)
  = Some (createDeviceProject devices id id (Env.MobileReportPath envConfig) None).
Proof.
  intros H. unfold projectConfig, desktopProjects, mobileProjects. simpl.
  rewrite lookup_app_r by (rewrite length_fmap; lia).
  rewrite length_fmap, list_lookup_fmap.
  replace (length desktop + j - length desktop) with j by lia.
  rewrite H. reflexivity.
Qed.

Lemma projectConfig_names (desktop : list DeviceNameChannel) (mobile : list string) :
  name <$> projectConfig devices envConfig desktop mobile
  = "Desktop" :: "Mobile"
      :: ((λ d, Js.replace "Desktop " "" (deviceName d)) <$> desktop) ++ mobile.
Proof.
  unfold projectConfig, desktopProjects, mobileProjects. simpl.
  rewrite fmap_app, <- !list_fmap_compose. do 2 f_equal.
  rewrite <- (list_fmap_id mobile) at 2. reflexivity.
Qed.

(** Names that are all in the registry resolve to a list of descriptors. *)
Lemma resolve_all {A : Type} (f : A → string) (l : list A) :
  (∀ x, x ∈ l → is_Some (devices !! f x)) →
  ∃ ds, Forall2 (λ x D, devices !! f x = Some D) l ds
        ∧ (λ x, devices !! f x) <$> l = Some <$> ds.
Proof.
  induction l as [|x l IH]; intros Hall.
  - exists []. split; [constructor | reflexivity].
  - destruct (Hall x) as [D HD]; [left |].
    destruct IH as (ds & Hds & Heq).
    { intros y Hy. apply Hall. right. exact Hy. }
    exists (D :: ds). split; [constructor; assumption |].
    rewrite !fmap_cons, HD, Heq. reflexivity.
Qed.

Lemma fmap_zip_with_resolved {A : Type} (f : A → string) (g : A → option DeviceDescriptor → Project)
    (l : list A) (ds : list DeviceDescriptor) :
  Forall2 (λ x D, devices !! f x = Some D) l ds →
  (λ x, g x (devices !! f x)) <$> l = zip_with (λ x D, g x (Some D)) l ds.
Proof.
  induction 1 as [|x D l ds HD _ IH]; [reflexivity |].
  rewrite fmap_cons, HD, IH. reflexivity.
Qed.

End ProjectFacts.

(** C3 (as stated) fails: "Desktop Opera" and "Nokia 3310" are not names of
    the registry, and the list is built all the same, with a project for
    each of them whose [use] carries no descriptor property. *)
Lemma unknown_device_is_not_rejected :
  Samples.registry !! "Desktop Opera" = None
  ∧ Samples.registry !! "Nokia 3310" = None
  ∧ ProjectConfig.projectConfig Samples.registry Samples.envConfig
      [ {| Types.deviceName := "Desktop Opera"; Types.channel := None |} ]
      [ "Nokia 3310" ]
    = [ {| ProjectConfig.name := "Desktop";
           ProjectConfig.use := ProjectConfig.UseArray [None];
           ProjectConfig.outputDir := "html-report/desktop" |};
        {| ProjectConfig.name := "Mobile";
           ProjectConfig.use := ProjectConfig.UseArray [None];
           ProjectConfig.outputDir := "html-report/mobile" |};
        {| ProjectConfig.name := "Opera";
           ProjectConfig.use :=
             ProjectConfig.UseObject
               {| ProjectConfig.device := None; ProjectConfig.channel := None |};
           ProjectConfig.outputDir := "html-report/desktop" |};
        {| ProjectConfig.name := "Nokia 3310";
           ProjectConfig.use :=
             ProjectConfig.UseObject
               {| ProjectConfig.device := None; ProjectConfig.channel := None |};
           ProjectConfig.outputDir := "html-report/mobile" |} ].
Proof. vm_compute. auto. Qed.

(** C3 (amended): a device name that is not in the registry makes nothing
    fail.  The entry still gets its project, at its place in the list, with
    the derived name, the category's output directory and a [use] that
    holds the channel of the entry and no descriptor property.  When the
    name is not the name of a property inherited from [Object.prototype]
    either, the grouping project of the category holds [undefined] at the
    entry's index. *)
Theorem unknown_device_yields_empty_project
    (devices : gmap string Types.DeviceDescriptor) (envConfig : Env.EnvironmentConfig)
    (desktop : list Types.DeviceNameChannel) (mobile : list string) :
  (∀ i d, desktop !! i = Some d → devices !! Types.deviceName d = None →
     ProjectConfig.projectConfig devices envConfig desktop mobile !! (2 + i)
     = Some {| ProjectConfig.name := Js.replace "Desktop " "" (Types.deviceName d);
               ProjectConfig.use :=
                 ProjectConfig.UseObject
                   {| ProjectConfig.device := None;
                      ProjectConfig.channel := Types.channel d |};
               ProjectConfig.outputDir := Env.DesktopReportPath envConfig |}
     ∧ (Types.deviceName d ∉ Js.object_prototype_names →
        ∃ entries,
          ProjectConfig.projectConfig devices envConfig desktop mobile !! 0
          = Some {| ProjectConfig.name := "Desktop";
                    ProjectConfig.use := ProjectConfig.UseArray entries;
                    ProjectConfig.outputDir := Env.DesktopReportPath envConfig |}
          ∧ entries !! i = Some None))
  ∧ (∀ j id, mobile !! j = Some id → devices !! id = None →
       ProjectConfig.projectConfig devices envConfig desktop mobile
         !! (2 + length desktop + j)
       = Some {| ProjectConfig.name := id;
                 ProjectConfig.use :=
                   ProjectConfig.UseObject
                     {| ProjectConfig.device := None; ProjectConfig.channel := None |};
                 ProjectConfig.outputDir := Env.MobileReportPath envConfig |}
       ∧ (id ∉ Js.object_prototype_names →
          ∃ entries,
            ProjectConfig.projectConfig devices envConfig desktop mobile !! 1
            = Some {| ProjectConfig.name := "Mobile";
                      ProjectConfig.use := ProjectConfig.UseArray entries;
                      ProjectConfig.outputDir := Env.MobileReportPath envConfig |}
            ∧ entries !! j = Some None)).
Proof.
  split.
  - intros i d Hd Hno. split.
    + rewrite (projectConfig_lookup_desktop _ _ _ _ _ _ Hd).
      unfold ProjectConfig.createDeviceProject. rewrite Hno. reflexivity.
    + intros _. eexists. split; [reflexivity |].
      rewrite list_lookup_fmap, Hd. simpl. rewrite Hno. reflexivity.
  - intros j id Hid Hno. split.
    + rewrite (projectConfig_lookup_mobile _ _ _ _ _ _ Hid).
      unfold ProjectConfig.createDeviceProject. rewrite Hno. reflexivity.
    + intros _. eexists. split; [reflexivity |].
      rewrite list_lookup_fmap, Hid. simpl. rewrite Hno. reflexivity.
Qed.

Lemma unknown_device_yields_empty_project_witness :
  ProjectConfig.projectConfig Samples.registry Samples.envConfig
    ProjectConfig.desktopBrowsers ProjectConfig.mobileBrowsers !! 3
  = Some {| ProjectConfig.name := "Edge";
            ProjectConfig.use :=
              ProjectConfig.UseObject
                {| ProjectConfig.device := None;
                   ProjectConfig.channel := Some "msedge" |};
            ProjectConfig.outputDir := "html-report/desktop" |}
  ∧ ∃ entries,
      ProjectConfig.projectConfig Samples.registry Samples.envConfig
        ProjectConfig.desktopBrowsers ProjectConfig.mobileBrowsers !! 0
      = Some {| ProjectConfig.name := "Desktop";
                ProjectConfig.use := ProjectConfig.UseArray entries;
                ProjectConfig.outputDir := "html-report/desktop" |}
      ∧ entries !! 1 = Some None.
Proof.
  destruct (unknown_device_yields_empty_project Samples.registry Samples.envConfig
              ProjectConfig.desktopBrowsers ProjectConfig.mobileBrowsers) as [Hdesktop _].
  destruct (Hdesktop 1
              {| Types.deviceName := "Desktop Edge"; Types.channel := Some "msedge" |})
    as [Hproject Haggregate]; [reflexivity | reflexivity |].
  split; [exact Hproject |].
  apply Haggregate. apply (bool_decide_unpack _). vm_compute. exact I.
Defined.

(** C4 (as stated) fails: "iPhone 12" is in both lists, the list is built
    without an error and it holds two projects named "iPhone 12". *)
Lemma duplicate_names_are_emitted :
  let projects :=
    ProjectConfig.projectConfig Samples.registry Samples.envConfig
      [ {| Types.deviceName := "iPhone 12"; Types.channel := None |} ]
      [ "iPhone 12" ] in
  ProjectConfig.name <$> projects = ["Desktop"; "Mobile"; "iPhone 12"; "iPhone 12"]
  ∧ ¬ NoDup (ProjectConfig.name <$> projects).
Proof.
  split; [reflexivity |].
  vm_compute. intros H.
  apply NoDup_cons in H as [_ H]. apply NoDup_cons in H as [_ H].
  apply NoDup_cons in H as [H _]. apply H. left.
Qed.

(** The collision the specification gives as its example does not arise:
    the desktop entry loses its "Desktop " and the mobile one keeps it. *)
Example desktop_chrome_in_both_lists :
  ProjectConfig.name <$>
    ProjectConfig.projectConfig Samples.registry Samples.envConfig
      [ {| Types.deviceName := "Desktop Chrome"; Types.channel := None |} ]
      [ "Desktop Chrome" ]
  = ["Desktop"; "Mobile"; "Chrome"; "Desktop Chrome"].
Proof. reflexivity. Qed.

(** C4 (amended): building the list never fails and checks no name.  The
    names of the output are "Desktop", "Mobile", the desktop device names
    with their first "Desktop " removed, in order, and the mobile names, in
    order; so they are pairwise distinct exactly when that list of derived
    names has no repetition. *)
Theorem projectConfig_names_are_derived_unchecked
    (devices : gmap string Types.DeviceDescriptor) (envConfig : Env.EnvironmentConfig)
    (desktop : list Types.DeviceNameChannel) (mobile : list string) :
  let derived :=
    "Desktop" :: "Mobile"
      :: ((λ d, Js.replace "Desktop " "" (Types.deviceName d)) <$> desktop) ++ mobile in
  ProjectConfig.name <$> ProjectConfig.projectConfig devices envConfig desktop mobile
  = derived
  ∧ (NoDup (ProjectConfig.name <$>
              ProjectConfig.projectConfig devices envConfig desktop mobile)
     ↔ NoDup derived).
Proof.
  intros derived. rewrite projectConfig_names. split; reflexivity.
Qed.

(** C5: when every name of the two lists is in the registry, the output is
    the "Desktop" grouping project, the "Mobile" grouping project, one
    project per desktop entry in the order of the list, then one project
    per mobile entry in the order of the list.  A desktop project holds the
    descriptor of its device and the channel of its entry; a mobile project
    holds the descriptor of its device and no channel. *)
Theorem projectConfig_sequence
    (devices : gmap string Types.DeviceDescriptor) (envConfig : Env.EnvironmentConfig)
    (desktop : list Types.DeviceNameChannel) (mobile : list string) :
  (∀ d, d ∈ desktop → is_Some (devices !! Types.deviceName d)) →
  (∀ id, id ∈ mobile → is_Some (devices !! id)) →
  ∃ desktopDevices mobileDevices,
    Forall2 (λ d D, devices !! Types.deviceName d = Some D) desktop desktopDevices
    ∧ Forall2 (λ id D, devices !! id = Some D) mobile mobileDevices
    ∧ ProjectConfig.projectConfig devices envConfig desktop mobile
      = {| ProjectConfig.name := "Desktop";
           ProjectConfig.use := ProjectConfig.UseArray (Some <$> desktopDevices);
           ProjectConfig.outputDir := Env.DesktopReportPath envConfig |}
        :: {| ProjectConfig.name := "Mobile";
              ProjectConfig.use := ProjectConfig.UseArray (Some <$> mobileDevices);
              ProjectConfig.outputDir := Env.MobileReportPath envConfig |}
        :: zip_with
             (λ d D,
                {| ProjectConfig.name := Js.replace "Desktop " "" (Types.deviceName d);
                   ProjectConfig.use :=
                     ProjectConfig.UseObject
                       {| ProjectConfig.device := Some D;
                          ProjectConfig.channel := Types.channel d |};
                   ProjectConfig.outputDir := Env.DesktopReportPath envConfig |})
             desktop desktopDevices
        ++ zip_with
             (λ id D,
                {| ProjectConfig.name := id;
                   ProjectConfig.use :=
                     ProjectConfig.UseObject
                       {| ProjectConfig.device := Some D;
                          ProjectConfig.channel := None |};
                   ProjectConfig.outputDir := Env.MobileReportPath envConfig |})
             mobile mobileDevices.
Proof.
  intros Hdesktop Hmobile.
  destruct (resolve_all devices Types.deviceName desktop Hdesktop) as (dd & Hdd & Edd).
  destruct (resolve_all devices id mobile Hmobile) as (md & Hmd & Emd).
  exists dd, md. split; [exact Hdd |]. split; [exact Hmd |].
  unfold ProjectConfig.projectConfig. rewrite Edd. simpl in Emd. rewrite Emd.
  do 2 f_equal. f_equal.
  - unfold ProjectConfig.desktopProjects, ProjectConfig.createDeviceProject.
    exact (fmap_zip_with_resolved devices Types.deviceName
             (λ d o, {| ProjectConfig.name := Js.replace "Desktop " "" (Types.deviceName d);
                        ProjectConfig.use :=
                          ProjectConfig.UseObject
                            {| ProjectConfig.device := o;
                               ProjectConfig.channel := Types.channel d |};
                        ProjectConfig.outputDir := Env.DesktopReportPath envConfig |})
             desktop dd Hdd).
  - unfold ProjectConfig.mobileProjects, ProjectConfig.createDeviceProject.
    exact (fmap_zip_with_resolved devices id
             (λ x o, {| ProjectConfig.name := x;
                        ProjectConfig.use :=
                          ProjectConfig.UseObject
                            {| ProjectConfig.device := o; ProjectConfig.channel := None |};
                        ProjectConfig.outputDir := Env.MobileReportPath envConfig |})
             mobile md Hmd).
Qed.

(** The end-to-end scenario of the specification, run. *)
Example end_to_end_scenario :
  ProjectConfig.projectConfig Samples.registry Samples.envConfig
    [ {| Types.deviceName := "Desktop Chrome"; Types.channel := Some "chrome" |} ]
    [ "iPhone 12" ]
  = [ {| ProjectConfig.name := "Desktop";
         ProjectConfig.use := ProjectConfig.UseArray [Some Samples.D1];
         ProjectConfig.outputDir := "html-report/desktop" |};
      {| ProjectConfig.name := "Mobile";
         ProjectConfig.use := ProjectConfig.UseArray [Some Samples.D2];
         ProjectConfig.outputDir := "html-report/mobile" |};
      {| ProjectConfig.name := "Chrome";
         ProjectConfig.use :=
           ProjectConfig.UseObject
             {| ProjectConfig.device := Some Samples.D1;
                ProjectConfig.channel := Some "chrome" |};
         ProjectConfig.outputDir := "html-report/desktop" |};
      {| ProjectConfig.name := "iPhone 12";
         ProjectConfig.use :=
           ProjectConfig.UseObject
             {| ProjectConfig.device := Some Samples.D2;
                ProjectConfig.channel := None |};
         ProjectConfig.outputDir := "html-report/mobile" |} ].
Proof. vm_compute. reflexivity. Qed.

Lemma projectConfig_sequence_witness :
  ∃ desktopDevices mobileDevices,
    Forall2 (λ d D, Samples.registry !! Types.deviceName d = Some D)
      [ {| Types.deviceName := "Desktop Chrome"; Types.channel := Some "chrome" |} ]
      desktopDevices
    ∧ Forall2 (λ id D, Samples.registry !! id = Some D) [ "iPhone 12" ] mobileDevices
    ∧ length (ProjectConfig.projectConfig Samples.registry Samples.envConfig
                [ {| Types.deviceName := "Desktop Chrome";
                     Types.channel := Some "chrome" |} ]
                [ "iPhone 12" ])
      = 2 + length desktopDevices + length mobileDevices.
Proof.
  destruct (projectConfig_sequence Samples.registry Samples.envConfig
              [ {| Types.deviceName := "Desktop Chrome"; Types.channel := Some "chrome" |} ]
              [ "iPhone 12" ]) as (dd & md & Hdd & Hmd & Heq).
  - intros d Hd. apply list_elem_of_singleton in Hd. subst d.
    exists Samples.D1. reflexivity.
  - intros id Hid. apply list_elem_of_singleton in Hid. subst id.
    exists Samples.D2. reflexivity.
  - exists dd, md. split; [exact Hdd |]. split; [exact Hmd |].
    apply Forall2_length in Hdd, Hmd. rewrite <- Hdd, <- Hmd. reflexivity.
Defined.

(** C6 (as stated) fails: "Old Desktop Chrome" does not start with
    "Desktop ", and its desktop project is not named after it unchanged. *)
Lemma desktop_name_changed_without_prefix :
  (∀ rest, "Old Desktop Chrome" ≠ "Desktop " +:+ rest)
  ∧ ProjectConfig.name <$>
      ProjectConfig.desktopProjects Samples.registry Samples.envConfig
        [ {| Types.deviceName := "Old Desktop Chrome"; Types.channel := None |} ]
    = [ "Old Chrome" ]
  ∧ "Old Chrome" ≠ "Old Desktop Chrome".
Proof.
  split; [| split].
  - intros rest. discriminate.
  - reflexivity.
  - discriminate.
Qed.

(** C6 (amended): the project of a desktop entry is named by the device
    name with its leftmost occurrence of "Desktop " removed, wherever that
    occurrence starts: a name that starts with "Desktop " loses that
    prefix, and a name in which "Desktop " does not occur is kept.  The
    project of a mobile entry is named by the device name as it is. *)
Theorem project_name_of_device_name
    (devices : gmap string Types.DeviceDescriptor) (envConfig : Env.EnvironmentConfig)
    (desktop : list Types.DeviceNameChannel) (mobile : list string) :
  (∀ i d, desktop !! i = Some d →
     ∃ p, ProjectConfig.projectConfig devices envConfig desktop mobile !! (2 + i) = Some p
          ∧ (∀ rest, Types.deviceName d = "Desktop " +:+ rest →
                     ProjectConfig.name p = rest)
          ∧ ((∀ pre post, Types.deviceName d ≠ pre +:+ "Desktop " +:+ post) →
             ProjectConfig.name p = Types.deviceName d)
          ∧ (∀ pre post,
               Types.deviceName d = pre +:+ "Desktop " +:+ post →
               (∀ pre' post', Types.deviceName d = pre' +:+ "Desktop " +:+ post' →
                              (String.length pre ≤ String.length pre')%nat) →
               ProjectConfig.name p = pre +:+ post))
  ∧ (∀ j id, mobile !! j = Some id →
       ∃ p, ProjectConfig.projectConfig devices envConfig desktop mobile
              !! (2 + length desktop + j) = Some p
            ∧ ProjectConfig.name p = id).
Proof.
  split.
  - intros i d Hd. eexists. split; [apply projectConfig_lookup_desktop, Hd |].
    simpl. repeat split.
    + intros rest ->. apply (replace_prefix "Desktop " "" rest).
    + apply replace_absent.
    + intros pre post Heq Hmin. rewrite Heq.
      apply (replace_leftmost "Desktop " "" pre post).
      rewrite <- Heq. exact Hmin.
  - intros j id Hid. eexists. split; [apply projectConfig_lookup_mobile, Hid |].
    reflexivity.
Qed.

Lemma project_name_of_device_name_witness :
  ∃ p, ProjectConfig.projectConfig Samples.registry Samples.envConfig
         ProjectConfig.desktopBrowsers ProjectConfig.mobileBrowsers !! 4 = Some p
       ∧ ProjectConfig.name p = "Firefox".
Proof.
  destruct (project_name_of_device_name Samples.registry Samples.envConfig
              ProjectConfig.desktopBrowsers ProjectConfig.mobileBrowsers) as [Hdesktop _].
  destruct (Hdesktop 2
              {| Types.deviceName := "Desktop Firefox"; Types.channel := None |} eq_refl)
    as (p & Hp & Hprefix & _).
  exists p. split; [exact Hp |]. apply Hprefix. reflexivity.
Defined.

Example mobile_name_kept :
  ProjectConfig.name <$>
    ProjectConfig.mobileProjects Samples.registry Samples.envConfig [ "Galaxy S5" ]
  = [ "Galaxy S5" ].
Proof. reflexivity. Qed.

(** ** File-based settings loader *)

Section FileFacts.
Import FileConfig.
Variable JSON : Type.
Variable JSON_parse : string → option JSON.

(** The variable declared by a call still holds "" when the call reads
    it: registering the callback does not touch the variables. *)
Lemma content_after_readFile (path : string) (w : world) :
  let '(content, w1) := declare_content w in
  cells (fs_readFile {| cb_path := path; cb_content := content |} w1) !! content
  = Some "".
Proof.
  unfold declare_content, fs_readFile. simpl.
  rewrite lookup_app_r by lia. rewrite Nat.sub_diag. reflexivity.
Qed.

Lemma readObject_eq (path : string) (w : world) :
  readObject JSON JSON_parse path w
  = (Returns None,
     {| files := files w; cells := cells w ++ [""];
        pending := pending w ++ [ {| cb_path := path; cb_content := length (cells w) |} ] |}).
Proof.
  unfold readObject. pose proof (content_after_readFile path w) as H.
  unfold declare_content in *. simpl in *. rewrite H. reflexivity.
Qed.

(** What the event loop does next, when nothing else was pending: it
    calls the callback of the read, after [readObject] has returned. *)
Lemma turn_after_readObject (path : string) (w : world) :
  pending w = [] →
  turn (readObject JSON JSON_parse path w).2
  = Some (run_callback {| cb_path := path; cb_content := length (cells w) |}
            {| files := files w; cells := cells w ++ [""]; pending := [] |}).
Proof. intros H. rewrite readObject_eq. unfold turn. simpl. rewrite H. reflexivity. Qed.

End FileFacts.

(** C1: for every path and every state of the files, [readObject] returns
    [undefined] to its caller, with the callback of the read still pending,
    not yet called; so the exported [PlayWrightServerConfig] is [undefined]
    whatever web-server.json holds. *)
Theorem readObject_returns_undefined
    (JSON : Type) (JSON_parse : string → option JSON) :
  (∀ (path : string) (w : FileConfig.world),
     (FileConfig.readObject JSON JSON_parse path w).1 = Returns None
     ∧ FileConfig.pending (FileConfig.readObject JSON JSON_parse path w).2
       = (FileConfig.pending w
            ++ [ {| FileConfig.cb_path := path;
                    FileConfig.cb_content := length (FileConfig.cells w) |} ])%list)
  ∧ (∀ (WebServerConfigPath : string) (w : FileConfig.world),
       (FileConfig.PlayWrightServerConfig JSON JSON_parse WebServerConfigPath w).1
       = Returns None).
Proof.
  split.
  - intros path w. rewrite readObject_eq. split; reflexivity.
  - intros path w. unfold FileConfig.PlayWrightServerConfig.
    rewrite readObject_eq. reflexivity.
Qed.

Example readObject_runs :
  (FileConfig.readObject Samples.json Samples.parse Samples.config_path
     (Samples.start Samples.one_file)).1 = Returns None
  ∧ (FileConfig.readObject Samples.json Samples.parse Samples.config_path
       (Samples.start Samples.no_files)).1 = Returns None.
Proof. split; reflexivity. Qed.

(** C2 does not hold of [readObject]: a file that is there, is not empty
    and parses is not returned.  The caller gets [undefined]; the text of
    the file reaches the variable [content] only in the next turn of the
    event loop, where nothing reads it. *)
Theorem readObject_ignores_valid_json
    (JSON : Type) (JSON_parse : string → option JSON)
    (path data : string) (v : JSON) (w : FileConfig.world) :
  FileConfig.files w path = FileConfig.ReadData data →
  data ≠ "" →
  JSON_parse data = Some v →
  FileConfig.pending w = [] →
  (FileConfig.readObject JSON JSON_parse path w).1 = Returns None
  ∧ (FileConfig.readObject JSON JSON_parse path w).1 ≠ Returns (Some v)
  ∧ ∃ w', FileConfig.turn (FileConfig.readObject JSON JSON_parse path w).2
          = Some (Returns (), w')
          ∧ FileConfig.cells w' !! length (FileConfig.cells w) = Some data.
Proof.
  intros Hfile Hne Hparse Hpending.
  rewrite (turn_after_readObject JSON JSON_parse path w Hpending), readObject_eq.
  split; [reflexivity |]. split; [discriminate |].
  unfold FileConfig.run_callback. simpl. rewrite Hfile.
  eexists. split; [reflexivity |]. simpl.
  rewrite list_lookup_insert_eq by (rewrite length_app; simpl; lia).
  reflexivity.
Qed.

Lemma readObject_ignores_valid_json_witness :
  (FileConfig.readObject Samples.json Samples.parse Samples.config_path
     (Samples.start Samples.one_file)).1 = Returns None
  ∧ Samples.parse "[]" = Some Samples.EmptyArray.
Proof.
  split; [| reflexivity].
  apply (readObject_ignores_valid_json Samples.json Samples.parse Samples.config_path
           "[]" Samples.EmptyArray (Samples.start Samples.one_file));
    [reflexivity | discriminate | reflexivity | reflexivity].
Defined.

(** A file that is not there: the caller gets [undefined], and the
    [ConfigError] is thrown by the callback in the next turn of the event
    loop, where the caller cannot catch it.  Any other read error goes the
    same way. *)
Example readObject_missing_file :
  (FileConfig.readObject Samples.json Samples.parse Samples.config_path
     (Samples.start Samples.no_files)).1 = Returns None
  ∧ fst <$> FileConfig.turn
              (FileConfig.readObject Samples.json Samples.parse Samples.config_path
                 (Samples.start Samples.no_files)).2
    = Some (Throws (ConfigError Samples.config_path)).
Proof. split; reflexivity. Qed.

(** ** Test-execution entry point *)

Section EntryFacts.
Import PlaywrightConfig.

(** [EnvironmentConfig] has no property of the name the entry point
    reads. *)
Lemma get_RunParrel (c : Env.EnvironmentConfig) : get c "RunParrel" = None.
Proof. unfold get, properties. simplify_map_eq. reflexivity. Qed.

Lemma get_RunParallel (c : Env.EnvironmentConfig) :
  get c "RunParallel" = Some (VBool (Env.RunParallel c)).
Proof. unfold get, properties. simplify_map_eq. reflexivity. Qed.

End EntryFacts.

(** C10: whenever the configuration loads, the [fullyParallel] handed to
    [defineConfig] is [undefined]; it is not the boolean [RunParallel] that
    the environment configuration computed from RUN_PARALLEL, which sits
    under the property name "RunParallel". *)
Theorem fullyParallel_is_undefined
    (JSON : Type) (JSON_parse : string → option JSON) (WebServerConfigPath : string)
    (devices : gmap string Types.DeviceDescriptor)
    (env : Env.environment) (w : FileConfig.world)
    (tc : PlaywrightConfig.TestConfig JSON) :
  PlaywrightConfig.playwright_config JSON JSON_parse WebServerConfigPath devices env w
  = Returns tc →
  PlaywrightConfig.fullyParallel JSON tc = None
  ∧ ∃ c, Env.envConfig env = Returns c
         ∧ PlaywrightConfig.get c "RunParallel"
           = Some (PlaywrightConfig.VBool (Env.RunParallel c))
         ∧ PlaywrightConfig.fullyParallel JSON tc
           ≠ Some (PlaywrightConfig.VBool (Env.RunParallel c)).
Proof.
  unfold PlaywrightConfig.playwright_config, PlaywrightConfig.config.
  destruct (Env.envConfig env) as [c|e] eqn:Hc; [| discriminate].
  simpl.
  destruct (FileConfig.PlayWrightServerConfig JSON JSON_parse WebServerConfigPath w).1
    as [f|e]; [| discriminate].
  simpl. intros [= <-]. simpl. rewrite get_RunParrel.
  split; [reflexivity |].
  exists c. split; [reflexivity |]. split; [apply get_RunParallel | discriminate].
Qed.

Lemma fullyParallel_is_undefined_witness :
  Env.getBool Samples.env "RUN_PARALLEL" None = Returns true
  ∧ ∃ tc,
      PlaywrightConfig.playwright_config Samples.json Samples.parse Samples.config_path
        Samples.registry Samples.env (Samples.start Samples.one_file) = Returns tc
      ∧ PlaywrightConfig.fullyParallel Samples.json tc = None.
Proof.
  split; [vm_compute; reflexivity |].
  eexists. split; [vm_compute; reflexivity |].
  apply (fullyParallel_is_undefined Samples.json Samples.parse Samples.config_path
           Samples.registry Samples.env (Samples.start Samples.one_file)).
  vm_compute. reflexivity.
Defined.


(** * Further properties of the modules *)

(** ** Environment settings loader, continued *)

Section EnvMore.
Import Env.

Lemma getString_cases (env : environment) (key : string) (dflt : option string) :
  getString env key dflt =
    match env !! key, dflt with
    | Some (String c v), _ => Returns (String c v)
    | _, Some (String c d) => Returns (String c d)
    | _, _ => Throws (ConfigError key)
    end.
Proof.
  unfold getString, getEnvVariable, Js.or_else.
  destruct (env !! key) as [[|c v]|], dflt as [[|c' d]|]; reflexivity.
Qed.

(** A value that is not empty and equals neither "true" nor "false" up to
    case: what [getBool] rejects. *)
Lemma getBool_Throws (env : environment) (key : string) (dflt : option bool) e :
  getBool env key dflt = Throws e ↔
  e = ConfigError key
  ∧ ∃ v, env !! key = Some v ∧ v ≠ ""
         ∧ ¬ Js.equal_ignoring_case v "true" ∧ ¬ Js.equal_ignoring_case v "false".
Proof.
  destruct (Js.truthy (env !! key)) eqn:Ht.
  - apply truthy_true in Ht as (v & Hv & Hne).
    rewrite (getBool_nonempty env key v dflt Hv Hne), boolMap_lookup.
    pose proof (toLowerCase_eq_iff "true" v eq_refl) as Htrue.
    pose proof (toLowerCase_eq_iff "false" v eq_refl) as Hfalse.
    split.
    + repeat case_decide; try discriminate. intros [= <-].
      split; [reflexivity |]. exists v. tauto.
    + intros (-> & v' & Hv' & _ & Hnt & Hnf).
      assert (v' = v) as -> by congruence.
      repeat case_decide; try tauto.
  - rewrite (getBool_falsy env key dflt Ht). split; [discriminate |].
    intros (_ & v & Hv & Hne & _). rewrite Hv, truthy_some in Ht by assumption.
    discriminate.
Qed.

Lemma getBool_true (env : environment) (key : string) :
  getBool env key None = Returns true ↔
  ∃ v, env !! key = Some v ∧ Js.equal_ignoring_case v "true".
Proof.
  destruct (Js.truthy (env !! key)) eqn:Ht.
  - apply truthy_true in Ht as (v & Hv & Hne).
    rewrite (getBool_nonempty env key v None Hv Hne), boolMap_lookup.
    pose proof (toLowerCase_eq_iff "true" v eq_refl) as Htrue.
    split.
    + repeat case_decide; try discriminate. intros _. exists v. tauto.
    + intros (v' & Hv' & Heq). assert (v' = v) as -> by congruence.
      apply Htrue in Heq. rewrite Heq. reflexivity.
  - rewrite (getBool_falsy env key None Ht). split; [discriminate |].
    intros (v & Hv & Heq). apply truthy_false in Ht as [Ht | Ht]; [congruence |].
    assert (v = "") as -> by congruence. inversion Heq.
Qed.

Lemma envConfig_base_url (env : environment) (c : EnvironmentConfig) :
  envConfig env = Returns c → env !! "BASE_URL" = Some (BasePath c).
Proof.
  unfold envConfig. rewrite !getString_cases.
  destruct (env !! "BASE_URL") as [[|cb b]|]; simpl; try discriminate.
  destruct (env !! "DESKTOP_REPORT_PATH") as [[|? ?]|],
           (env !! "MOBILE_REPORT_PATH") as [[|? ?]|]; simpl;
    destruct (getBool env "RUN_PARALLEL" None); simpl;
    try discriminate; intros [= <-]; reflexivity.
Qed.

End EnvMore.






(** X4: building [EnvironmentConfig] fails in two ways only.  It throws
    [ConfigError] for BASE_URL exactly when BASE_URL is absent or empty,
    whatever the other variables hold; it throws [ConfigError] for
    RUN_PARALLEL exactly when BASE_URL is set and RUN_PARALLEL holds a
    non-empty value that is neither "true" nor "false" up to case.  The two
    report paths never make it fail. *)
Theorem envConfig_throws_iff (env : Env.environment) (e : error) :
  Env.envConfig env = Throws e ↔
  (e = ConfigError "BASE_URL"
   ∧ (env !! "BASE_URL" = None ∨ env !! "BASE_URL" = Some ""))
  ∨ (e = ConfigError "RUN_PARALLEL"
     ∧ (∃ b, env !! "BASE_URL" = Some b ∧ b ≠ "")
     ∧ ∃ v, env !! "RUN_PARALLEL" = Some v ∧ v ≠ ""
            ∧ ¬ Js.equal_ignoring_case v "true"
            ∧ ¬ Js.equal_ignoring_case v "false").
Proof.
  unfold Env.envConfig. rewrite !getString_cases.
  destruct (env !! "BASE_URL") as [[|c b]|] eqn:Hb; simpl.
  - split.
    + intros [= <-]. left. auto.
    + intros [[-> _] | (_ & (b & Hb' & Hne) & _)]; [reflexivity | congruence].
  - assert (∀ (d m : string),
              (parallel ← Env.getBool env "RUN_PARALLEL" None;
               Returns {| Env.BasePath := String c b; Env.DesktopReportPath := d;
                          Env.MobileReportPath := m; Env.RunParallel := parallel |})
              = Throws e ↔ Env.getBool env "RUN_PARALLEL" None = Throws e) as Hbind.
    { intros d m. destruct (Env.getBool env "RUN_PARALLEL" None); simpl;
        split; congruence. }
    destruct (env !! "DESKTOP_REPORT_PATH") as [[|? ?]|],
             (env !! "MOBILE_REPORT_PATH") as [[|? ?]|]; simpl;
      rewrite Hbind, getBool_Throws; clear Hbind;
      (split;
       [ intros [-> Hv]; right; split; [reflexivity |]; split; [| exact Hv];
         eexists; split; [reflexivity | discriminate]
       | intros [[_ [? | ?]] | (-> & _ & Hv)]; [discriminate.. | auto] ]).
  - split.
    + intros [= <-]. left. auto.
    + intros [[-> _] | (_ & (b & Hb' & Hne) & _)]; [reflexivity | congruence].
Qed.

(** X5: when [EnvironmentConfig] is built, [BasePath] is the non-empty
    value of BASE_URL, each report path is the non-empty value of its
    variable or else its documented default, and [RunParallel] is [true]
    exactly when RUN_PARALLEL equals "true" up to case. *)
Theorem envConfig_fields (env : Env.environment) (c : Env.EnvironmentConfig) :
  Env.envConfig env = Returns c →
  (env !! "BASE_URL" = Some (Env.BasePath c) ∧ Env.BasePath c ≠ "")
  ∧ (∀ v, env !! "DESKTOP_REPORT_PATH" = Some v → v ≠ "" →
          Env.DesktopReportPath c = v)
  ∧ ((env !! "DESKTOP_REPORT_PATH" = None ∨ env !! "DESKTOP_REPORT_PATH" = Some "") →
     Env.DesktopReportPath c = "html-report/desktop")
  ∧ (∀ v, env !! "MOBILE_REPORT_PATH" = Some v → v ≠ "" →
          Env.MobileReportPath c = v)
  ∧ ((env !! "MOBILE_REPORT_PATH" = None ∨ env !! "MOBILE_REPORT_PATH" = Some "") →
     Env.MobileReportPath c = "html-report/mobile")
  ∧ (Env.RunParallel c = true ↔
     ∃ v, env !! "RUN_PARALLEL" = Some v ∧ Js.equal_ignoring_case v "true").
Proof.
  unfold Env.envConfig.
  pose proof (getBool_true env "RUN_PARALLEL") as Htrue.
  rewrite !getString_cases.
  destruct (env !! "BASE_URL") as [[|cb b]|]; simpl; try discriminate.
  destruct (env !! "DESKTOP_REPORT_PATH") as [[|? ?]|],
           (env !! "MOBILE_REPORT_PATH") as [[|? ?]|]; simpl;
    destruct (Env.getBool env "RUN_PARALLEL" None) as [p|]; simpl;
    try discriminate; intros [= <-]; simpl;
    (split; [split; [reflexivity | discriminate] |]);
    (split; [intros v [= <-] Hv; congruence || reflexivity || discriminate |]);
    (split; [intros [? | ?]; reflexivity || discriminate |]);
    (split; [intros v [= <-] Hv; congruence || reflexivity || discriminate |]);
    (split; [intros [? | ?]; reflexivity || discriminate |]);
    (split;
     [ intros ->; apply Htrue; reflexivity
     | intros H; apply Htrue in H; congruence ]).
Qed.

Lemma envConfig_fields_witness :
  Env.envConfig Samples.env = Returns Samples.envConfig
  ∧ Samples.env !! "BASE_URL" = Some "http://localhost".
Proof.
  split; [vm_compute; reflexivity |].
  apply (envConfig_fields Samples.env Samples.envConfig).
  vm_compute. reflexivity.
Defined.

(** ** Strings *)

Section StringFacts.

Lemma append_nil_r (s : string) : s +:+ "" = s.
Proof. induction s as [|c s IH]; [reflexivity |]. rewrite append_cons, IH. reflexivity. Qed.

Lemma append_assoc (s t u : string) : (s +:+ t) +:+ u = s +:+ t +:+ u.
Proof.
  induction s as [|c s IH]; [reflexivity |]. rewrite !append_cons, IH. reflexivity.
Qed.

Lemma length_append (s t : string) :
  String.length (s +:+ t) = (String.length s + String.length t)%nat.
Proof.
  induction s as [|c s IH]; [reflexivity |]. rewrite append_cons. simpl.
  rewrite IH. reflexivity.
Qed.

Lemma append_cancel_r (s1 s2 t : string) : s1 +:+ t = s2 +:+ t → s1 = s2.
Proof.
  revert s2. induction s1 as [|c s1 IH]; intros [|c' s2] H.
  - reflexivity.
  - apply (f_equal String.length) in H. rewrite !length_append in H.
    simpl in H. lia.
  - apply (f_equal String.length) in H. rewrite !length_append in H.
    simpl in H. lia.
  - rewrite !append_cons in H. injection H as -> H. f_equal. apply IH, H.
Qed.

End StringFacts.

(** ** ConfigError *)

(** X6: the message of a [ConfigError] quotes the name it was built with,
    and tells the names apart: two errors with the same message were built
    with the same name. *)
Theorem message_identifies_name :
  (∀ varName, ∃ before after,
     Errors.message varName
     = before +:+ Errors.quote +:+ varName +:+ Errors.quote +:+ after)
  ∧ (∀ a b, Errors.message a = Errors.message b → a = b).
Proof.
  split.
  - intros varName. eexists _, _. reflexivity.
  - intros a b H. unfold Errors.message in H.
    apply (inj (String.app _)) in H. apply (inj (String.app _)) in H.
    apply (append_cancel_r a b _ H).
Qed.

Example message_of_BASE_URL :
  Errors.message "BASE_URL"
  = "No environment variable declared for " +:+ Errors.quote +:+ "BASE_URL"
    +:+ Errors.quote +:+ " - have you set the value in " +:+ Errors.quote
    +:+ "~/env/.env" +:+ Errors.quote +:+ "?"
  ∧ String.length (Errors.message "BASE_URL") = 89.
Proof. split; reflexivity. Qed.

(** ** Device registry, continued *)

Section RegistryMore.
Import Types Devices.

Lemma customDevices_lookup (devices : gmap string DeviceDescriptor) (name : string) :
  customDevices devices !! name
  = if decide (name = "Galaxy A52") then Some GalaxyA52 else devices !! name.
Proof.
  unfold customDevices, __customList. case_decide as Hname.
  - subst. apply spread_lookup_Some, lookup_singleton_eq.
  - rewrite spread_lookup_None, spread_empty; [reflexivity |].
    apply lookup_singleton_ne. congruence.
Qed.

End RegistryMore.

(** X7: building the registry on top of a registry changes nothing: the
    overlay of the user list is idempotent. *)
Theorem customDevices_idempotent (devices : gmap string Types.DeviceDescriptor) :
  Devices.customDevices (Devices.customDevices devices) = Devices.customDevices devices.
Proof.
  apply map_eq. intros name. rewrite !customDevices_lookup.
  case_decide; reflexivity.
Qed.

(** X8: the names of the registry are the names of the built-in table and
    "Galaxy A52": the overlay removes no name and adds at most that one. *)
Theorem customDevices_names (devices : gmap string Types.DeviceDescriptor) :
  dom (Devices.customDevices devices) = {[ "Galaxy A52" ]} ∪ dom devices
  ∧ size (Devices.customDevices devices)
    = (if decide (is_Some (devices !! "Galaxy A52")) then size devices
       else S (size devices)).
Proof.
  assert (dom (Devices.customDevices devices) = {[ "Galaxy A52" ]} ∪ dom devices) as Hdom.
  { apply set_eq. intros name.
    rewrite elem_of_union, elem_of_singleton, !elem_of_dom, customDevices_lookup.
    case_decide; [split; eauto | tauto]. }
  split; [exact Hdom |].
  rewrite <- !size_dom, Hdom. case_decide as Hin.
  - f_equal. apply subseteq_union_1_L, singleton_subseteq_l, elem_of_dom, Hin.
  - rewrite size_union, size_singleton; [reflexivity |].
    apply disjoint_singleton_l. rewrite elem_of_dom. exact Hin.
Qed.

(** ** Device list script *)

Section DeviceListFacts.
Import DeviceList.

Lemma sort_Sorted (l : list string) : Sorted String.le (sort l).
Proof. apply (Sorted_merge_sort String.le). Qed.

Lemma sort_Permutation (l : list string) : sort l ≡ₚ l.
Proof. apply (merge_sort_Permutation String.le). Qed.

Lemma elem_of_getOwnPropertyNames {V : Type} (o : gmap string V) (name : string) :
  name ∈ getOwnPropertyNames o ↔ is_Some (o !! name).
Proof. unfold getOwnPropertyNames. rewrite elem_of_elements, elem_of_dom. reflexivity. Qed.

Lemma elem_of_deviceNames (devices : gmap string Types.DeviceDescriptor) (name : string) :
  name ∈ deviceNames devices ↔ is_Some (Devices.customDevices devices !! name).
Proof.
  unfold deviceNames. rewrite sort_Permutation. apply elem_of_getOwnPropertyNames.
Qed.

Lemma join_cons (sep x y : string) (l : list string) :
  join sep (x :: y :: l) = x +:+ sep +:+ join sep (y :: l).
Proof. reflexivity. Qed.

(** An element of the list is in the joined text, between separators. *)
Lemma join_elem_of (sep x : string) (l : list string) :
  x ∈ l →
  ∃ before after,
    join sep l = before +:+ x +:+ after
    ∧ (before = "" ∨ ∃ b, before = b +:+ sep)
    ∧ (after = "" ∨ ∃ a, after = sep +:+ a).
Proof.
  induction l as [|y l IH]; [inversion 1 |].
  intros Hx. destruct l as [|z l].
  - apply list_elem_of_singleton in Hx as ->.
    exists "", "". simpl. rewrite append_nil_r. auto.
  - rewrite join_cons. apply elem_of_cons in Hx as [-> | Hx].
    + exists "", (sep +:+ join sep (z :: l)). split; [reflexivity |]. eauto.
    + destruct (IH Hx) as (before & after & -> & Hb & Ha).
      exists (y +:+ sep +:+ before), after. split; [| split].
      * rewrite !append_assoc. reflexivity.
      * right. destruct Hb as [-> | [b ->]].
        -- exists y. rewrite append_nil_r. reflexivity.
        -- exists (y +:+ sep +:+ b). rewrite !append_assoc. reflexivity.
      * exact Ha.
Qed.

End DeviceListFacts.

(** X9: for a built-in table whose device names are ASCII, the names the
    script lists are exactly the names of the registry, each once, in
    ascending order of their characters, with "Galaxy A52" among them; and
    the list does not depend on the order in which the names were
    enumerated: sorting any duplicate-free enumeration of the registry's
    names gives the same list. *)
Theorem deviceNames_sorted_registry_names
    (devices : gmap string Types.DeviceDescriptor) :
  map_Forall (λ name _, Js.is_ascii name = true) devices →
  Sorted String.le (DeviceList.deviceNames devices)
  ∧ NoDup (DeviceList.deviceNames devices)
  ∧ (∀ name, name ∈ DeviceList.deviceNames devices
             ↔ is_Some (Devices.customDevices devices !! name))
  ∧ Forall (λ name, Js.is_ascii name = true) (DeviceList.deviceNames devices)
  ∧ "Galaxy A52" ∈ DeviceList.deviceNames devices
  ∧ (∀ keys : list string,
       NoDup keys →
       (∀ name, name ∈ keys ↔ is_Some (Devices.customDevices devices !! name)) →
       DeviceList.sort keys = DeviceList.deviceNames devices).
Proof.
  intros Hascii.
  split; [apply sort_Sorted |].
  split.
  { unfold DeviceList.deviceNames. rewrite sort_Permutation.
    apply NoDup_elements. }
  split; [apply elem_of_deviceNames |].
  split.
  { apply Forall_forall. intros name Hname.
    apply elem_of_deviceNames in Hname as [d Hd].
    rewrite customDevices_lookup in Hd.
    case_decide as Hn; [subst; reflexivity |].
    apply (Hascii name d Hd). }
  split.
  { apply elem_of_deviceNames. rewrite customDevices_lookup. eauto. }
  intros keys Hnodup Hkeys.
  apply (Sorted_unique String.le); [apply sort_Sorted.. |].
  unfold DeviceList.deviceNames. rewrite !sort_Permutation.
  apply NoDup_Permutation; [exact Hnodup | apply NoDup_elements |].
  intros name. rewrite Hkeys, elem_of_getOwnPropertyNames. reflexivity.
Qed.

Lemma deviceNames_sorted_registry_names_witness :
  DeviceList.sort ["iPhone 12"; "Galaxy A52"; "Desktop Chrome"]
  = DeviceList.deviceNames Samples.registry.
Proof.
  destruct (deviceNames_sorted_registry_names Samples.registry)
    as (_ & _ & _ & _ & _ & Hcanonical).
  { apply (bool_decide_unpack _). vm_compute. exact I. }
  apply Hcanonical.
  - repeat constructor; rewrite ?elem_of_cons, ?elem_of_nil;
      intros H; repeat destruct H as [H | H]; discriminate || assumption.
  - intros name. rewrite customDevices_lookup. unfold Samples.registry.
    rewrite !elem_of_cons, elem_of_nil.
    case_decide as Ha; [subst; split; eauto |].
    destruct (decide (name = "iPhone 12")) as [-> | Hi];
      [split; [eauto | auto] |].
    destruct (decide (name = "Desktop Chrome")) as [-> | Hc];
      [split; [eauto | auto] |].
    rewrite !lookup_insert_ne, lookup_empty by congruence.
    split; [intros [? | [? | [? | []]]]; contradiction | intros [? ?]; discriminate].
Defined.

Example deviceNames_run :
  DeviceList.deviceNames Samples.registry = ["Desktop Chrome"; "Galaxy A52"; "iPhone 12"].
Proof. vm_compute. reflexivity. Qed.

(** X10: the text the script writes starts with the two header lines and
    an empty line, and every name of the registry is one of its lines: it
    stands right after a line feed and is followed by a line feed or by
    the end of the text. *)
Theorem content_lists_every_device
    (devices : gmap string Types.DeviceDescriptor) :
  (∃ rest,
     DeviceList.content devices
     = "/* ALL DEVICES ARE PULLED FROM THE DEVICE TYPE IN THE PLAYWRIGHT LIBRARY */"
       +:+ DeviceList.newline
       +:+ "/* REGENERATE LIST USING `npm run ref:generate` */"
       +:+ DeviceList.newline +:+ DeviceList.newline +:+ rest)
  ∧ (∀ name, is_Some (Devices.customDevices devices !! name) →
       ∃ before after,
         DeviceList.content devices
         = before +:+ DeviceList.newline +:+ name +:+ after
         ∧ (after = "" ∨ ∃ a, after = DeviceList.newline +:+ a)).
Proof.
  unfold DeviceList.content, DeviceList.lines.
  assert ("Galaxy A52" ∈ DeviceList.deviceNames devices) as Hin.
  { apply elem_of_deviceNames. rewrite customDevices_lookup. eauto. }
  destruct (DeviceList.deviceNames devices) as [|n0 names] eqn:Hnames;
    [inversion Hin |].
  split.
  - exists (DeviceList.join DeviceList.newline (n0 :: names)).
    rewrite !join_cons, !append_assoc. reflexivity.
  - intros name Hname. apply elem_of_deviceNames in Hname. rewrite Hnames in Hname.
    destruct (join_elem_of DeviceList.newline name (n0 :: names) Hname)
      as (before & after & Hjoin & Hb & Ha).
    rewrite !join_cons, Hjoin.
    destruct Hb as [-> | [b ->]].
    + exists ("/* ALL DEVICES ARE PULLED FROM THE DEVICE TYPE IN THE PLAYWRIGHT LIBRARY */"
              +:+ DeviceList.newline
              +:+ ("/* REGENERATE LIST USING `npm run ref:generate` */"
                   +:+ DeviceList.newline)), after.
      split; [| exact Ha]. rewrite !append_assoc. reflexivity.
    + exists ("/* ALL DEVICES ARE PULLED FROM THE DEVICE TYPE IN THE PLAYWRIGHT LIBRARY */"
              +:+ DeviceList.newline
              +:+ ("/* REGENERATE LIST USING `npm run ref:generate` */"
                   +:+ DeviceList.newline)
              +:+ DeviceList.newline +:+ b), after.
      split; [| exact Ha]. rewrite !append_assoc. reflexivity.
Qed.

Lemma content_lists_every_device_witness :
  ∃ before after,
    DeviceList.content Samples.registry
    = before +:+ DeviceList.newline +:+ "iPhone 12" +:+ after
    ∧ (after = "" ∨ ∃ a, after = DeviceList.newline +:+ a).
Proof.
  destruct (content_lists_every_device Samples.registry) as [_ Hline].
  apply Hline. exists Samples.D2. reflexivity.
Defined.

(** ** Project list, continued *)

Section ReplaceMore.
Import Js.

(** Whether the pattern occurs in a string can be decided. *)
Lemma occurs_or_not (p s : string) :
  (∃ pre post, s = pre +:+ p +:+ post) ∨ (∀ pre post, s ≠ pre +:+ p +:+ post).
Proof.
  induction s as [|c s IH].
  - destruct (strip_prefix p "") as [rest|] eqn:E.
    + left. exists "", rest. apply (strip_prefix_Some p _ rest), E.
    + right. intros [|c pre] post H; [| discriminate].
      apply (strip_prefix_Some p "" post) in H. congruence.
  - destruct (strip_prefix p (String c s)) as [rest|] eqn:E.
    + left. exists "", rest. apply (strip_prefix_Some p _ rest), E.
    + destruct IH as [(pre & post & ->) | Hno].
      * left. exists (String c pre), post. reflexivity.
      * right. intros [|c' pre] post H.
        -- apply (strip_prefix_Some p _ post) in H. congruence.
        -- rewrite append_cons in H. injection H as _ H. apply (Hno pre post H).
Qed.

(** Removing an occurrence shortens the string by the length of the
    pattern. *)
Lemma replace_length (p s : string) :
  (∃ pre post, s = pre +:+ p +:+ post) →
  (String.length (replace p "" s) + String.length p = String.length s)%nat.
Proof.
  induction s as [|c s IH]; intros (pre & post & Hs); rewrite replace_unfold.
  - destruct pre; [| discriminate].
    apply (strip_prefix_Some p "" post) in Hs as Hs'. rewrite Hs'.
    change ("" +:+ post) with post.
    change ("" +:+ p +:+ post) with (p +:+ post) in Hs.
    apply (f_equal String.length) in Hs. rewrite length_append in Hs.
    simpl in Hs. simpl. lia.
  - destruct (strip_prefix p (String c s)) as [rest|] eqn:E.
    + apply strip_prefix_Some in E. rewrite E, !length_append. simpl. lia.
    + destruct pre as [|c' pre].
      * apply (strip_prefix_Some p _ post) in Hs. congruence.
      * rewrite append_cons in Hs. injection Hs as _ Hs.
        simpl. rewrite IH by eauto. reflexivity.
Qed.

End ReplaceMore.

Section ProjectMore.
Import Types ProjectConfig.
Variable devices : gmap string DeviceDescriptor.
Variable envConfig : Env.EnvironmentConfig.

Lemma projectConfig_lookup_inv
    (desktop : list DeviceNameChannel) (mobile : list string) (k : nat) (p : Project) :
  projectConfig devices envConfig desktop mobile !! (2 + k) = Some p →
  ((k < length desktop)%nat ∧ ∃ d, desktop !! k = Some d)
  ∨ ((length desktop ≤ k)%nat ∧ ∃ id, mobile !! (k - length desktop)%nat = Some id).
Proof.
  unfold projectConfig, desktopProjects, mobileProjects. simpl.
  destruct (decide (k < length desktop)%nat) as [Hlt | Hge].
  - intros _. left. split; [exact Hlt |]. apply lookup_lt_is_Some_2, Hlt.
  - rewrite lookup_app_r by (rewrite length_fmap; lia).
    rewrite length_fmap, list_lookup_fmap.
    destruct (mobile !! (k - length desktop)%nat) as [id|]; [| discriminate].
    intros _. right. split; [lia | eauto].
Qed.

End ProjectMore.

(** X11: the list has one project per entry and the two grouping projects,
    whether or not the names resolve; the "Desktop" project and the
    projects of the desktop entries write to [DesktopReportPath], the
    "Mobile" project and the projects of the mobile entries to
    [MobileReportPath]. *)
Theorem projectConfig_output_directories
    (devices : gmap string Types.DeviceDescriptor) (envConfig : Env.EnvironmentConfig)
    (desktop : list Types.DeviceNameChannel) (mobile : list string) :
  length (ProjectConfig.projectConfig devices envConfig desktop mobile)
  = 2 + length desktop + length mobile
  ∧ ∀ k p,
      ProjectConfig.projectConfig devices envConfig desktop mobile !! k = Some p →
      (k = 0 ∨ (2 ≤ k < 2 + length desktop)%nat →
       ProjectConfig.outputDir p = Env.DesktopReportPath envConfig)
      ∧ (k = 1 ∨ (2 + length desktop ≤ k)%nat →
         ProjectConfig.outputDir p = Env.MobileReportPath envConfig).
Proof.
  split; [apply projectConfig_length |].
  intros [|[|k]] p Hp.
  - injection Hp as <-. split; [reflexivity | lia].
  - injection Hp as <-. split; [lia | reflexivity].
  - change (S (S k)) with (2 + k) in Hp.
    destruct (projectConfig_lookup_inv _ _ _ _ _ _ Hp) as [[Hlt [d Hd]] | [Hge [id Hid]]].
    + rewrite (projectConfig_lookup_desktop _ _ _ _ _ _ Hd) in Hp.
      injection Hp as <-. split; [reflexivity | lia].
    + replace (2 + k) with (2 + length desktop + (k - length desktop)) in Hp by lia.
      rewrite (projectConfig_lookup_mobile _ _ _ _ _ _ Hid) in Hp.
      injection Hp as <-. split; [lia | reflexivity].
Qed.

Lemma projectConfig_output_directories_witness :
  ∃ p, ProjectConfig.default_export Samples.registry Samples.envConfig !! 6 = Some p
       ∧ ProjectConfig.outputDir p = "html-report/mobile".
Proof.
  destruct (projectConfig_output_directories Samples.registry Samples.envConfig
              ProjectConfig.desktopBrowsers ProjectConfig.mobileBrowsers) as [_ Hdir].
  eexists. split; [reflexivity |].
  eapply (Hdir 6); [reflexivity |]. right. simpl. lia.
Defined.

(** X12: the grouping project of a category and the projects of its
    entries agree, for lists whose device names are names of the registry
    or, when they are not, are not names of properties inherited from
    [Object.prototype].  The [use] array of "Desktop" has one element per
    desktop entry, and its element at an index is what the registry gives
    for that entry's device name, resolved or [undefined]; the project of
    the entry carries that same lookup, with the entry's channel.  The same
    holds for "Mobile", whose projects carry no channel. *)
Theorem aggregate_matches_individual_projects
    (devices : gmap string Types.DeviceDescriptor) (envConfig : Env.EnvironmentConfig)
    (desktop : list Types.DeviceNameChannel) (mobile : list string) :
  Forall (λ d, is_Some (devices !! Types.deviceName d)
               ∨ Types.deviceName d ∉ Js.object_prototype_names) desktop →
  Forall (λ id, is_Some (devices !! id) ∨ id ∉ Js.object_prototype_names) mobile →
  ∃ desktopEntries mobileEntries,
    ProjectConfig.projectConfig devices envConfig desktop mobile !! 0
    = Some {| ProjectConfig.name := "Desktop";
              ProjectConfig.use := ProjectConfig.UseArray desktopEntries;
              ProjectConfig.outputDir := Env.DesktopReportPath envConfig |}
    ∧ ProjectConfig.projectConfig devices envConfig desktop mobile !! 1
      = Some {| ProjectConfig.name := "Mobile";
                ProjectConfig.use := ProjectConfig.UseArray mobileEntries;
                ProjectConfig.outputDir := Env.MobileReportPath envConfig |}
    ∧ length desktopEntries = length desktop
    ∧ length mobileEntries = length mobile
    ∧ (∀ i d, desktop !! i = Some d →
         desktopEntries !! i = Some (devices !! Types.deviceName d)
         ∧ ∃ p, ProjectConfig.projectConfig devices envConfig desktop mobile !! (2 + i)
                = Some p
                ∧ ProjectConfig.use p
                  = ProjectConfig.UseObject
                      {| ProjectConfig.device := devices !! Types.deviceName d;
                         ProjectConfig.channel := Types.channel d |})
    ∧ (∀ j id, mobile !! j = Some id →
         mobileEntries !! j = Some (devices !! id)
         ∧ ∃ p, ProjectConfig.projectConfig devices envConfig desktop mobile
                  !! (2 + length desktop + j) = Some p
                ∧ ProjectConfig.use p
                  = ProjectConfig.UseObject
                      {| ProjectConfig.device := devices !! id;
                         ProjectConfig.channel := None |}).
Proof.
  intros _ _.
  eexists _, _. split; [reflexivity |]. split; [reflexivity |].
  split; [apply length_fmap |]. split; [apply length_fmap |]. split.
  - intros i d Hd. split; [rewrite list_lookup_fmap, Hd; reflexivity |].
    eexists. split; [apply projectConfig_lookup_desktop, Hd | reflexivity].
  - intros j id Hid. split; [rewrite list_lookup_fmap, Hid; reflexivity |].
    eexists. split; [apply projectConfig_lookup_mobile, Hid | reflexivity].
Qed.

(** X13: the project of a desktop entry is named differently from its
    device exactly when "Desktop " occurs somewhere in the device name, and
    then the project name is eight characters shorter. *)
Theorem desktop_name_differs_iff_occurs
    (devices : gmap string Types.DeviceDescriptor) (envConfig : Env.EnvironmentConfig)
    (desktop : list Types.DeviceNameChannel) (mobile : list string)
    (i : nat) (d : Types.DeviceNameChannel) :
  desktop !! i = Some d →
  ∃ p, ProjectConfig.projectConfig devices envConfig desktop mobile !! (2 + i) = Some p
       ∧ (ProjectConfig.name p ≠ Types.deviceName d
          ↔ ∃ pre post, Types.deviceName d = pre +:+ "Desktop " +:+ post)
       ∧ ((∃ pre post, Types.deviceName d = pre +:+ "Desktop " +:+ post) →
          (String.length (ProjectConfig.name p) + 8
           = String.length (Types.deviceName d))%nat).
Proof.
  intros Hd. eexists. split; [apply projectConfig_lookup_desktop, Hd |]. simpl.
  pose proof (replace_length "Desktop " (Types.deviceName d)) as Hlen.
  split; [| exact Hlen]. split.
  - intros Hne. destruct (occurs_or_not "Desktop " (Types.deviceName d)) as [H | H];
      [exact H |].
    destruct Hne. apply replace_absent, H.
  - intros Hocc Heq. apply Hlen in Hocc. rewrite Heq in Hocc. simpl in Hocc. lia.
Qed.

Lemma desktop_name_differs_iff_occurs_witness :
  ∃ p, ProjectConfig.default_export Samples.registry Samples.envConfig !! 5 = Some p
       ∧ (String.length (ProjectConfig.name p) + 8 = String.length "Desktop Safari")%nat.
Proof.
  destruct (desktop_name_differs_iff_occurs Samples.registry Samples.envConfig
              ProjectConfig.desktopBrowsers ProjectConfig.mobileBrowsers 3
              {| Types.deviceName := "Desktop Safari"; Types.channel := None |} eq_refl)
    as (p & Hp & _ & Hlen).
  exists p. split; [exact Hp |]. apply Hlen. exists "", "Safari". reflexivity.
Defined.

(** X14: in the list the template exports, the project "Galaxy A52" always
    carries the descriptor of lib/types/devices/samsung-a52.ts, and so does
    the "Mobile" grouping project at the same place, whatever the built-in
    table holds under that name and whatever the environment. *)
Theorem default_export_Galaxy_A52
    (devices : gmap string Types.DeviceDescriptor) (envConfig : Env.EnvironmentConfig) :
  ProjectConfig.default_export (Devices.customDevices devices) envConfig !! 8
  = Some {| ProjectConfig.name := "Galaxy A52";
            ProjectConfig.use :=
              ProjectConfig.UseObject
                {| ProjectConfig.device := Some Devices.GalaxyA52;
                   ProjectConfig.channel := None |};
            ProjectConfig.outputDir := Env.MobileReportPath envConfig |}
  ∧ ∃ entries,
      ProjectConfig.use <$>
        ProjectConfig.default_export (Devices.customDevices devices) envConfig !! 1
      = Some (ProjectConfig.UseArray entries)
      ∧ entries !! 2 = Some (Some Devices.GalaxyA52).
Proof.
  assert (Devices.customDevices devices !! "Galaxy A52" = Some Devices.GalaxyA52) as Hl
    by (rewrite customDevices_lookup; reflexivity).
  unfold ProjectConfig.default_export. split.
  - change 8 with (2 + length ProjectConfig.desktopBrowsers + 2).
    rewrite (projectConfig_lookup_mobile (Devices.customDevices devices) envConfig
               ProjectConfig.desktopBrowsers ProjectConfig.mobileBrowsers
               2 "Galaxy A52" eq_refl).
    unfold ProjectConfig.createDeviceProject. rewrite Hl. reflexivity.
  - eexists. split; [reflexivity |]. simpl. rewrite Hl. reflexivity.
Qed.

(** X15: the list the template exports has ten projects with ten
    different names, for every device table and every environment. *)
Theorem default_export_names_distinct
    (devices : gmap string Types.DeviceDescriptor) (envConfig : Env.EnvironmentConfig) :
  ProjectConfig.name <$> ProjectConfig.default_export devices envConfig
  = [ "Desktop"; "Mobile"; "Chrome"; "Edge"; "Firefox"; "Safari";
      "Galaxy S5"; "Galaxy S5 landscape"; "Galaxy A52"; "iPhone 12" ]
  ∧ NoDup (ProjectConfig.name <$> ProjectConfig.default_export devices envConfig).
Proof.
  unfold ProjectConfig.default_export. rewrite projectConfig_names.
  split; [reflexivity |].
  apply (bool_decide_unpack _). vm_compute. exact I.
Qed.

Lemma aggregate_matches_individual_projects_witness :
  ∃ entries,
    ProjectConfig.use <$>
      ProjectConfig.default_export Samples.registry Samples.envConfig !! 0
    = Some (ProjectConfig.UseArray entries)
    ∧ entries !! 0 = Some (Some Samples.D1)
    ∧ entries !! 1 = Some None.
Proof.
  destruct (aggregate_matches_individual_projects Samples.registry Samples.envConfig
              ProjectConfig.desktopBrowsers ProjectConfig.mobileBrowsers)
    as (de & me & H0 & _ & _ & _ & Hdesktop & _).
  - apply (bool_decide_unpack _). vm_compute. exact I.
  - apply (bool_decide_unpack _). vm_compute. exact I.
  - exists de. unfold ProjectConfig.default_export. rewrite H0.
    split; [reflexivity |]. split.
    + apply (Hdesktop 0
               {| Types.deviceName := "Desktop Chrome"; Types.channel := Some "chrome" |}).
      reflexivity.
    + apply (Hdesktop 1
               {| Types.deviceName := "Desktop Edge"; Types.channel := Some "msedge" |}).
      reflexivity.
Defined.

(** ** File-based settings loader, continued *)

(** X16: a read that ends in an error, a missing file like any other, is
    not reported to the caller of [readObject], who gets [undefined]; the
    [ConfigError] built with the path is thrown by the callback in the next
    turn of the event loop, after which nothing is pending. *)
Theorem read_error_is_thrown_in_the_event_loop
    (JSON : Type) (JSON_parse : string → option JSON)
    (path code : string) (w : FileConfig.world) :
  FileConfig.files w path = FileConfig.ReadError code →
  FileConfig.pending w = [] →
  (FileConfig.readObject JSON JSON_parse path w).1 = Returns None
  ∧ ∃ w', FileConfig.turn (FileConfig.readObject JSON JSON_parse path w).2
          = Some (Throws (ConfigError path), w')
          ∧ FileConfig.pending w' = []
          ∧ FileConfig.turn w' = None.
Proof.
  intros Hfile Hpending.
  rewrite (turn_after_readObject JSON JSON_parse path w Hpending), readObject_eq.
  split; [reflexivity |].
  unfold FileConfig.run_callback. simpl. rewrite Hfile.
  eexists. split; [reflexivity |]. split; reflexivity.
Qed.

Lemma read_error_is_thrown_in_the_event_loop_witness :
  (FileConfig.readObject Samples.json Samples.parse Samples.config_path
     (Samples.start Samples.no_files)).1 = Returns None.
Proof.
  apply (read_error_is_thrown_in_the_event_loop Samples.json Samples.parse
           Samples.config_path "ENOENT" (Samples.start Samples.no_files));
    reflexivity.
Defined.

(** ** Test-execution entry point, continued *)

Section EntryMore.
Import PlaywrightConfig.
Variable JSON : Type.

Lemma config_eq (JSON_parse : string → option JSON) (path : string)
    (devices : gmap string Types.DeviceDescriptor)
    (env : Env.environment) (w : FileConfig.world) :
  config JSON JSON_parse path devices env w
  = (envConfig ← Env.envConfig env;
     Returns {| EnvironmentConfig := envConfig;
                Reporters := reporters;
                ProjectConfig :=
                  ProjectConfig.default_export (Devices.customDevices devices) envConfig;
                FileConfig := {| PlayWrightServerConfig := None |} |}).
Proof.
  unfold config, FileConfig.PlayWrightServerConfig. rewrite readObject_eq.
  destruct (Env.envConfig env); reflexivity.
Qed.

Lemma get_BasePath (c : Env.EnvironmentConfig) :
  get c "BasePath" = Some (VString (Env.BasePath c)).
Proof. unfold get, properties. simplify_map_eq. reflexivity. Qed.

End EntryMore.

(** X17: the configuration handed to the runner never has a [webServer],
    and it does not depend on the files at all: the same environment gives
    the same configuration for every state of the files, every path of
    web-server.json and every JSON parser. *)
Theorem playwright_config_ignores_files
    (JSON : Type) (JSON_parse : string → option JSON) (WebServerConfigPath : string)
    (devices : gmap string Types.DeviceDescriptor)
    (env : Env.environment) (w : FileConfig.world)
    (tc : PlaywrightConfig.TestConfig JSON) :
  PlaywrightConfig.playwright_config JSON JSON_parse WebServerConfigPath devices env w
  = Returns tc →
  PlaywrightConfig.webServer JSON tc = None
  ∧ ∀ (JSON_parse' : string → option JSON) (path' : string) (w' : FileConfig.world),
      PlaywrightConfig.playwright_config JSON JSON_parse' path' devices env w'
      = Returns tc.
Proof.
  unfold PlaywrightConfig.playwright_config. rewrite config_eq.
  intros H. split.
  - destruct (Env.envConfig env); [| discriminate].
    simpl in H. injection H as <-. reflexivity.
  - intros JSON_parse' path' w'. rewrite config_eq. exact H.
Qed.

Lemma playwright_config_ignores_files_witness :
  ∃ tc,
    PlaywrightConfig.playwright_config Samples.json Samples.parse Samples.config_path
      Samples.registry Samples.env (Samples.start Samples.one_file) = Returns tc
    ∧ PlaywrightConfig.playwright_config Samples.json Samples.parse Samples.config_path
        Samples.registry Samples.env (Samples.start Samples.no_files) = Returns tc
    ∧ PlaywrightConfig.webServer Samples.json tc = None.
Proof.
  eexists. split; [vm_compute; reflexivity |].
  match goal with
  | |- _ ∧ PlaywrightConfig.webServer _ ?tc = _ =>
      destruct (playwright_config_ignores_files Samples.json Samples.parse
                  Samples.config_path Samples.registry Samples.env
                  (Samples.start Samples.one_file) tc) as [Hws Hsame];
        [vm_compute; reflexivity |]
  end.
  split; [apply Hsame | exact Hws].
Defined.

(** X18: loading playwright.config.ts fails exactly when building
    [EnvironmentConfig] fails, and with the same error; the file loader
    and the project list never make it fail. *)
Theorem playwright_config_throws_iff
    (JSON : Type) (JSON_parse : string → option JSON) (WebServerConfigPath : string)
    (devices : gmap string Types.DeviceDescriptor)
    (env : Env.environment) (w : FileConfig.world) (e : error) :
  PlaywrightConfig.playwright_config JSON JSON_parse WebServerConfigPath devices env w
  = Throws e
  ↔ Env.envConfig env = Throws e.
Proof.
  unfold PlaywrightConfig.playwright_config. rewrite config_eq.
  destruct (Env.envConfig env); simpl; split; congruence.
Qed.

(** X19: when the configuration loads, [baseURL] is the non-empty value of
    BASE_URL, [projects] is the exported project list over the registry,
    built with the report paths of the environment, [reporter] is the
    reporter list, and the three settings that depend on CI go together:
    with a non-empty CI, [forbidOnly], two retries and one worker; without,
    none of them. *)
Theorem playwright_config_fields
    (JSON : Type) (JSON_parse : string → option JSON) (WebServerConfigPath : string)
    (devices : gmap string Types.DeviceDescriptor)
    (env : Env.environment) (w : FileConfig.world)
    (tc : PlaywrightConfig.TestConfig JSON) :
  PlaywrightConfig.playwright_config JSON JSON_parse WebServerConfigPath devices env w
  = Returns tc →
  ∃ c, Env.envConfig env = Returns c
       ∧ env !! "BASE_URL" = Some (Env.BasePath c)
       ∧ PlaywrightConfig.baseURL JSON tc
         = Some (PlaywrightConfig.VString (Env.BasePath c))
       ∧ PlaywrightConfig.projects JSON tc
         = ProjectConfig.projectConfig (Devices.customDevices devices) c
             ProjectConfig.desktopBrowsers ProjectConfig.mobileBrowsers
       ∧ PlaywrightConfig.reporter JSON tc = PlaywrightConfig.reporters
       ∧ ((∃ ci, env !! "CI" = Some ci ∧ ci ≠ "") →
          PlaywrightConfig.forbidOnly JSON tc = true
          ∧ PlaywrightConfig.retries JSON tc = 2%nat
          ∧ PlaywrightConfig.workers JSON tc = Some 1%nat)
       ∧ ((env !! "CI" = None ∨ env !! "CI" = Some "") →
          PlaywrightConfig.forbidOnly JSON tc = false
          ∧ PlaywrightConfig.retries JSON tc = 0%nat
          ∧ PlaywrightConfig.workers JSON tc = None).
Proof.
  unfold PlaywrightConfig.playwright_config. rewrite config_eq.
  destruct (Env.envConfig env) as [c|] eqn:Hc; [| discriminate].
  simpl. intros [= <-]. exists c. simpl.
  split; [reflexivity |].
  split; [apply (envConfig_base_url env c Hc) |].
  split; [apply get_BasePath |].
  split; [reflexivity |]. split; [reflexivity |]. split.
  - intros Hci. apply truthy_true in Hci. rewrite Hci. auto.
  - intros Hci. apply truthy_false in Hci. rewrite Hci. auto.
Qed.

Lemma playwright_config_fields_witness :
  ∃ c, Env.envConfig Samples.env = Returns c
       ∧ Samples.env !! "BASE_URL" = Some (Env.BasePath c).
Proof.
  destruct (playwright_config_fields Samples.json Samples.parse Samples.config_path
              Samples.registry Samples.env (Samples.start Samples.one_file)
              (PlaywrightConfig.defineConfig Samples.json Samples.env
                 {| PlaywrightConfig.EnvironmentConfig := Samples.envConfig;
                    PlaywrightConfig.Reporters := PlaywrightConfig.reporters;
                    PlaywrightConfig.ProjectConfig :=
                      ProjectConfig.default_export
                        (Devices.customDevices Samples.registry) Samples.envConfig;
                    PlaywrightConfig.FileConfig :=
                      {| PlaywrightConfig.PlayWrightServerConfig := None |} |}))
    as (c & Hc & Hbase & _).
  - vm_compute. reflexivity.
  - exists c. split; assumption.
Defined.
